(** * Folder consolidation tool: merge engine and empty-directory pruner

A shallow embedding of [consolidate_auto.py], [folder_consolidator.py]
and [1_cleanup_empty_folders.py].

- The filesystem the scripts write to (the master folder, or the tree
  being pruned) is a finite map from paths to entries.
- The source trees the merge engine reads are snapshots: the engine
  only lists and reads them, and they lie outside the master folder.
- [self.stats] is a record of counters threaded through every call.
- A Python exception is the [None] result of a computation in the
  monad [M]; [try ... except] is [try_except].
- [log] only appends to the log stream, which is not part of the
  modelled tree; it is left out. *)

From Stdlib Require Import Ascii String ZArith Strings.Byte.
From stdpp Require Import gmap strings list fin_maps pretty sorting.

Local Open Scope string_scope.
Local Open Scope Z_scope.

(** ** Paths ([pathlib.Path]) *)

(** A path is the list of its segments below the filesystem anchor. *)
Abbreviation path := (list string).

Module Path.

(** [p / n] *)
Definition join (p : path) (n : string) : path := p ++ [n].

(** [p.name] *)
Definition name (p : path) : string := List.last p EmptyString.

(** [p.parent] *)
Definition parent (p : path) : path := List.removelast p.

(** [q] lies strictly below [p]. *)
Definition below (p q : path) : bool :=
  bool_decide (p `prefix_of` q) && negb (bool_decide (p = q)).

(** [len(p.parts)], up to the anchor, which every path here shares. *)
Definition depth (p : path) : nat := length p.

(** [s.rfind(c)]: index of the last [c] in [s], or [-1]. *)
Fixpoint rfind (c : ascii) (s : string) : Z :=
  match s with
  | EmptyString => -1
  | String a s' =>
      let i := rfind c s' in
      if 0 <=? i then i + 1
      else if Ascii.eqb a c then 0 else -1
  end.

Definition len (s : string) : Z := Z.of_nat (String.length s).

(** [s[i:]] and [s[:i]] for [0 <= i <= len s]. *)
Definition slice_from (i : Z) (s : string) : string :=
  String.substring (Z.to_nat i) (String.length s - Z.to_nat i) s.
Definition slice_to (i : Z) (s : string) : string :=
  String.substring 0 (Z.to_nat i) s.

(** [PurePath.suffix] on a final component:
    [i = name.rfind('.')], and [name[i:]] if [0 < i < len(name) - 1],
    else the empty string. *)
Definition suffix_of (nm : string) : string :=
  let i := rfind "." nm in
  if (0 <? i) && (i <? len nm - 1) then slice_from i nm else EmptyString.

(** [PurePath.stem] on a final component. *)
Definition stem_of (nm : string) : string :=
  let i := rfind "." nm in
  if (0 <? i) && (i <? len nm - 1) then slice_to i nm else nm.

Definition suffix (p : path) : string := suffix_of (name p).
Definition stem (p : path) : string := stem_of (name p).

End Path.

Infix "/" := Path.join : list_scope.

(** ** The filesystem written to *)

(** A regular file carries its bytes and whether it can be opened for
    reading; a directory carries nothing: its content is the set of paths
    below it. *)
Inductive entry : Type :=
  | EFile (readable : bool) (data : list byte)
  | EDir.

Abbreviation filesystem := (gmap path entry).

Section Filesystem.

Implicit Types (fs : filesystem) (p : path).

(** [p.exists()] *)
Definition exists_ fs p : bool := bool_decide (is_Some (fs !! p)).

(** [p.is_file()] and [p.is_dir()] *)
Definition is_file fs p : bool :=
  match fs !! p with Some (EFile _ _) => true | _ => false end.
Definition is_dir fs p : bool :=
  match fs !! p with Some EDir => true | _ => false end.

(** [open(p, "rb").read()]: the bytes, or [None] when opening fails
    (no such file, a directory, permission denied). *)
Definition read_file fs p : option (list byte) :=
  match fs !! p with
  | Some (EFile true data) => Some data
  | _ => None
  end.

End Filesystem.

(** ** Sibling names *)

Section FindAvailableName.

Implicit Types (fs : filesystem) (p : path).

(** [parent / f"{stem}_{counter}{suffix}"] *)
Definition candidate (parent : path) (stem suffix : string) (counter : nat) : path :=
  (parent / (stem +:+ "_" +:+ pretty counter +:+ suffix))%list.

(** The [while True] loop of [find_available_name]. The loop leaves at
    the first counter whose path is free. [fuel] bounds the number of
    further iterations; with [fuel = size fs] the bound is never hit
    ([find_loop_free] below), so the last branch is dead. *)
Fixpoint find_loop fs (parent : path) (stem suffix : string)
    (fuel counter : nat) : path :=
  let new_path := candidate parent stem suffix counter in
  if negb (exists_ fs new_path) then new_path
  else match fuel with
       | O => new_path
       | S fuel' => find_loop fs parent stem suffix fuel' (S counter)
       end.

(** [find_available_name(target_path, is_folder)]. Both scripts take
    [path_obj.stem] for files and for folders alike; only the suffix
    differs. *)
Definition find_available_name fs (target_path : path) (is_folder : bool) : path :=
  if negb (exists_ fs target_path) then target_path
  else
    let stem := Path.stem target_path in
    let suffix := if negb is_folder then Path.suffix target_path else EmptyString in
    let parent := Path.parent target_path in
    find_loop fs parent stem suffix (size fs) 2.

End FindAvailableName.

(** ** Source trees *)

(** What the merge engine finds below a source root: regular files
    (readable or not), directories (listable or not) with their named
    entries in the order [iterdir] yields them, and entries that are
    neither ([is_file()] and [is_dir()] both false). *)
#[local] Unset Elimination Schemes.
Inductive node : Type :=
  | File (readable : bool) (data : list byte)
  | Dir (listable : bool) (entries : list (string * node))
  | Other.
#[local] Set Elimination Schemes.

(** ** Run statistics and the state of a run *)

Record Stats : Type := mkStats {
  folders_copied : nat;
  folders_renamed : nat;
  files_copied : nat;
  files_renamed : nat;
  files_skipped : nat;
  errors : nat
}.

Definition zero_stats : Stats := mkStats 0 0 0 0 0 0.

Record State : Type := mkState {
  disk : filesystem;
  stats : Stats
}.

(** [self.stats[k] += 1] for each key [k]. *)
Definition incr_folders_copied (s : State) : State :=
  let c := stats s in
  mkState (disk s) (mkStats (S (folders_copied c)) (folders_renamed c)
    (files_copied c) (files_renamed c) (files_skipped c) (errors c)).
Definition incr_folders_renamed (s : State) : State :=
  let c := stats s in
  mkState (disk s) (mkStats (folders_copied c) (S (folders_renamed c))
    (files_copied c) (files_renamed c) (files_skipped c) (errors c)).
Definition incr_files_copied (s : State) : State :=
  let c := stats s in
  mkState (disk s) (mkStats (folders_copied c) (folders_renamed c)
    (S (files_copied c)) (files_renamed c) (files_skipped c) (errors c)).
Definition incr_files_renamed (s : State) : State :=
  let c := stats s in
  mkState (disk s) (mkStats (folders_copied c) (folders_renamed c)
    (files_copied c) (S (files_renamed c)) (files_skipped c) (errors c)).
Definition incr_files_skipped (s : State) : State :=
  let c := stats s in
  mkState (disk s) (mkStats (folders_copied c) (folders_renamed c)
    (files_copied c) (files_renamed c) (S (files_skipped c)) (errors c)).
Definition incr_errors (s : State) : State :=
  let c := stats s in
  mkState (disk s) (mkStats (folders_copied c) (folders_renamed c)
    (files_copied c) (files_renamed c) (files_skipped c) (S (errors c))).

Definition set_disk (fs : filesystem) (s : State) : State :=
  mkState fs (stats s).

(** ** Computations that may raise *)

(** A computation runs from a state to a state and either returns a value
    or raises ([None]); what it did before raising stays done. *)
Definition M (A : Type) : Type := State → option A * State.

Definition ret {A} (a : A) : M A := λ s, (Some a, s).
Definition raise {A} : M A := λ s, (None, s).
Definition bind {A B} (m : M A) (k : A → M B) : M B := λ s,
  match m s with
  | (Some a, s') => k a s'
  | (None, s') => (None, s')
  end.
Definition gets {A} (f : State → A) : M A := λ s, (Some (f s), s).
Definition modify (f : State → State) : M unit := λ s, (Some tt, f s).

(** [try: body except Exception: handler] *)
Definition try_except {A} (body handler : M A) : M A := λ s,
  match body s with
  | (Some a, s') => (Some a, s')
  | (None, s') => handler s'
  end.

Notation "'let*' x ':=' m 'in' k" := (bind m (λ x, k))
  (at level 10, x name, m at level 100, k at level 200, only parsing).
Notation "m ';;;' k" := (bind m (λ _, k))
  (at level 100, k at level 200, right associativity, only parsing).

(** [for x in l: body(x)] *)
Definition for_each {A} (l : list A) (body : A → M unit) : M unit :=
  (fix loop (l : list A) : M unit :=
     match l with
     | [] => ret tt
     | x :: l' => body x ;;; loop l'
     end) l.

(** The state a computation leaves, and what it returned. *)
Definition exec {A} (m : M A) (s : State) : State := snd (m s).
Definition result {A} (m : M A) (s : State) : option A := fst (m s).

(** ** Filesystem operations of the merge engine *)

(** [p.mkdir(parents=True, exist_ok=True)], on the reversed path: an
    existing directory is left alone, an existing file raises, and a
    missing path is created after its parent. *)
Fixpoint mkdir_rev (rp : list string) (fs : filesystem) : option filesystem :=
  match fs !! rev rp with
  | Some EDir => Some fs
  | Some (EFile _ _) => None
  | None =>
      match rp with
      | [] => Some (<[rev rp := EDir]> fs)
      | _ :: rp' =>
          match mkdir_rev rp' fs with
          | Some fs' => Some (<[rev rp := EDir]> fs')
          | None => None
          end
      end
  end.

Definition mkdir_p (p : path) : M unit := λ s,
  match mkdir_rev (rev p) (disk s) with
  | Some fs' => (Some tt, set_disk fs' s)
  | None => (None, s)
  end.

(** [shutil.copy2(src, dst)]. The source must open for reading. A [dst]
    that is a directory stands for [dst / src.name]. The file written must
    not be a directory and must lie in an existing directory; an existing
    file there is overwritten. *)
Definition copy2 (src_name : string) (src : node) (dst : path) : M unit := λ s,
  match src with
  | File true data =>
      let dst := if is_dir (disk s) dst then (dst / src_name)%list else dst in
      if is_dir (disk s) dst then (None, s)
      else if is_dir (disk s) (Path.parent dst)
           then (Some tt, set_disk (<[dst := EFile true data]> (disk s)) s)
           else (None, s)
  | _ => (None, s)
  end.

(** [open(f, "rb")] on a source entry. *)
Definition read_node (n : node) : option (list byte) :=
  match n with
  | File true data => Some data
  | _ => None
  end.

(** [bool(h)] for the result [h] of [get_file_hash]: [None] and the empty
    string are false. *)
Definition truthy (h : option string) : bool :=
  match h with
  | Some d => negb (String.eqb d EmptyString)
  | None => false
  end.

Section MergeEngine.

(** [hashlib.md5(data).hexdigest()] *)
Variable md5 : list byte → string.

(** [get_file_hash(file_path)], given what opening the file yields:
    the digest, or [None] when reading raises. *)
Definition get_file_hash (content : option (list byte)) : option string :=
  match content with
  | Some data => Some (md5 data)
  | None => None
  end.

(** [are_files_identical(file1, file2)] of [consolidate_auto.py]:
    [hash1 and hash2 and hash1 == hash2], read as a condition. *)
Definition are_files_identical (file1 file2 : option (list byte)) : bool :=
  let hash1 := get_file_hash file1 in
  let hash2 := get_file_hash file2 in
  truthy hash1 && truthy hash2 && bool_decide (hash1 = hash2).

(** [are_files_identical] of [folder_consolidator.py]:
    [if hash1 and hash2: return hash1 == hash2] and [return False]
    otherwise. *)
Definition are_files_identical' (file1 file2 : option (list byte)) : bool :=
  let hash1 := get_file_hash file1 in
  let hash2 := get_file_hash file2 in
  if truthy hash1 && truthy hash2 then bool_decide (hash1 = hash2) else false.

(** [copy_file(source_file, dest_file)], the same in both scripts;
    [nm] is [source_file.name]. *)
Definition copy_file (nm : string) (source_file : node) (dest_file : path) : M bool :=
  mkdir_p (Path.parent dest_file) ;;;
  try_except
    (let* dest_exists := gets (λ s, exists_ (disk s) dest_file) in
     if negb dest_exists then
       copy2 nm source_file dest_file ;;;
       modify incr_files_copied ;;;
       ret true
     else
       let* identical := gets (λ s,
         are_files_identical (read_node source_file) (read_file (disk s) dest_file)) in
       if identical then
         modify incr_files_skipped ;;;
         ret true
       else
         let* new_dest := gets (λ s, find_available_name (disk s) dest_file false) in
         copy2 nm source_file new_dest ;;;
         modify incr_files_renamed ;;;
         ret true)
    (modify incr_errors ;;;
     ret false).

(** The body of the [for item in source_folder.iterdir()] loops:
    [if item.is_file(): copy_file(item, dest_folder / item.name)],
    [elif item.is_dir(): copy_folder_tree(item, dest_folder)]. *)
Definition copy_item (copy_folder_tree : string → node → path → M unit)
    (dest_folder : path) '((inm, item) : string * node) : M unit :=
  match item with
  | File _ _ => copy_file inm item (dest_folder / inm)%list ;;; ret tt
  | Dir _ _ => copy_folder_tree inm item dest_folder
  | Other => ret tt
  end.

(** [copy_folder_tree(source_folder, dest_parent)] of
    [consolidate_auto.py]; [nm] is [source_folder.name]. Listing a
    source that is not a listable directory raises inside the [try]. *)
Fixpoint copy_folder_tree (nm : string) (source_folder : node)
    (dest_parent : path) {struct source_folder} : M unit :=
  let dest_folder := (dest_parent / nm)%list in
  let* dest_exists := gets (λ s, exists_ (disk s) dest_folder) in
  let* dest_folder :=
    (if dest_exists then
       let* new_dest_folder := gets (λ s, find_available_name (disk s) dest_folder true) in
       modify incr_folders_renamed ;;;
       ret new_dest_folder
     else ret dest_folder) in
  mkdir_p dest_folder ;;;
  modify incr_folders_copied ;;;
  try_except
    match source_folder with
    | Dir true entries =>
        for_each entries (copy_item copy_folder_tree dest_folder)
    | _ => raise
    end
    (modify incr_errors).

(** [consolidate(source_folders)] of [consolidate_auto.py]. A source
    root is what is found at its path: [None] when nothing is there.
    A root that cannot be listed raises inside the [try], whose handler
    only logs. *)
Definition consolidate (master_folder : path)
    (source_folders : list (option node)) : M unit :=
  for_each source_folders (λ source_path,
    match source_path with
    | None => ret tt
    | Some root =>
        try_except
          match root with
          | Dir true entries =>
              for_each entries (copy_item copy_folder_tree master_folder)
          | _ => raise
          end
          (ret tt)
    end).

(** [FolderConsolidator(master_folder)]: creates the master folder and
    starts from zero counters. *)
Definition FolderConsolidator (master_folder : path) (fs : filesystem) : option State :=
  match mkdir_p master_folder (mkState fs zero_stats) with
  | (Some _, s) => Some s
  | (None, _) => None
  end.

End MergeEngine.

(** ** [folder_consolidator.py] *)

Module Interactive.
Section Interactive.

Variable md5 : list byte → string.

(** [copy_folder_tree(source_folder, dest_parent)] once
    [source_folder.exists()] holds, which it does for every [item] the
    loop passes down. The value returned is the [True]/[False] of the
    script; the loop drops it. *)
Fixpoint copy_existing_tree (nm : string) (source_folder : node)
    (dest_parent : path) {struct source_folder} : M bool :=
  let dest_folder := (dest_parent / nm)%list in
  let* dest_exists := gets (λ s, exists_ (disk s) dest_folder) in
  let* dest_folder :=
    (if dest_exists then
       let* new_dest_folder := gets (λ s, find_available_name (disk s) dest_folder true) in
       modify incr_folders_renamed ;;;
       ret new_dest_folder
     else ret dest_folder) in
  mkdir_p dest_folder ;;;
  modify incr_folders_copied ;;;
  try_except
    (match source_folder with
     | Dir true entries =>
         for_each entries
           (copy_item md5 (λ n src d, copy_existing_tree n src d ;;; ret tt) dest_folder)
     | _ => raise
     end ;;;
     ret true)
    (modify incr_errors ;;;
     ret false).

(** [copy_folder_tree(source_folder, dest_parent=None)]: a source path
    with nothing at it counts an error and returns [False]. *)
Definition copy_folder_tree (master_folder : path) (nm : string)
    (source_folder : option node) (dest_parent : option path) : M bool :=
  let dest_parent := default master_folder dest_parent in
  match source_folder with
  | None =>
      modify incr_errors ;;;
      ret false
  | Some src => copy_existing_tree nm src dest_parent
  end.

(** [consolidate(source_folders)]: every source root goes through
    [copy_folder_tree] under its own name. *)
Definition consolidate (master_folder : path)
    (source_folders : list (string * option node)) : M unit :=
  for_each source_folders (λ '(nm, source),
    copy_folder_tree master_folder nm source None ;;; ret tt).

End Interactive.
End Interactive.

(** ** [1_cleanup_empty_folders.py] *)

Module Cleaner.

Record Stats : Type := mkStats {
  empty_folders_deleted : nat;
  errors : nat
}.

Record State : Type := mkState {
  disk : filesystem;
  stats : Stats
}.

(** [folder_path.rglob('*')]: every entry below [folder_path]. *)
Definition rglob (fs : filesystem) (folder_path : path) : list path :=
  filter (λ q, Path.below folder_path q = true) (map_to_list fs).*1.

(** [is_folder_empty(folder_path)]: no entry below is a file. Nothing
    in the loop raises here, so its [except] branch is never taken. *)
Definition is_folder_empty (fs : filesystem) (folder_path : path) : bool :=
  forallb (λ item, negb (is_file fs item)) (rglob fs folder_path).

(** [sorted(dirs, key=lambda p: len(p.parts), reverse=True)]: a stable
    sort, deepest first. *)
Fixpoint insert_deepest_first (p : path) (l : list path) : list path :=
  match l with
  | [] => [p]
  | q :: l' =>
      if (Path.depth q <=? Path.depth p)%nat then p :: q :: l'
      else q :: insert_deepest_first p l'
  end.
Definition sorted_deepest_first (l : list path) : list path :=
  foldr insert_deepest_first [] l.

(** [directory.rmdir()]: [None] when it raises, which it does unless
    [directory] is a directory without entries. *)
Definition has_entries (fs : filesystem) (d : path) : bool :=
  existsb (λ q, bool_decide (q ≠ [] ∧ Path.parent q = d)) (map_to_list fs).*1.
Definition rmdir (fs : filesystem) (d : path) : option filesystem :=
  if is_dir fs d && negb (has_entries fs d) then Some (delete d fs) else None.

(** The body of the loop over [all_dirs], with its [try]/[except]. *)
Definition remove_if_empty (s : State) (directory : path) : State :=
  if is_folder_empty (disk s) directory then
    match rmdir (disk s) directory with
    | Some fs' =>
        mkState fs' (mkStats (S (empty_folders_deleted (stats s))) (errors (stats s)))
    | None =>
        mkState (disk s) (mkStats (empty_folders_deleted (stats s)) (S (errors (stats s))))
    end
  else s.

(** [all_dirs] as computed on entry. *)
Definition all_dirs (fs : filesystem) (folder_path : path) : list path :=
  sorted_deepest_first (filter (λ d, is_dir fs d = true) (rglob fs folder_path)).

(** [remove_empty_folders(folder_path)]. Listing and sorting do not
    raise here; the outer [try] has nothing to catch. *)
Definition remove_empty_folders (folder_path : path) (s : State) : State :=
  if negb (exists_ (disk s) folder_path) then s
  else foldl remove_if_empty s (all_dirs (disk s) folder_path).

(** [clean_sources(source_folders)] *)
Definition clean_sources (source_folders : list path) (s : State) : State :=
  foldl (λ s source_path,
           if negb (exists_ (disk s) source_path) then s
           else remove_empty_folders source_path s)
        s source_folders.

End Cleaner.

(** * Vocabulary of the properties *)

(** ** Induction on source trees *)

Section NodeInd.

Variable P : node → Prop.
Hypothesis HFile : ∀ r data, P (File r data).
Hypothesis HDir : ∀ l entries, Forall (λ it, P it.2) entries → P (Dir l entries).
Hypothesis HOther : P Other.

Fixpoint node_ind (n : node) : P n :=
  match n with
  | File r data => HFile r data
  | Dir l entries =>
      HDir l entries
        ((fix go (es : list (string * node)) : Forall (λ it, P it.2) es :=
            match es with
            | [] => List.Forall_nil _
            | (nm, item) :: es' =>
                @List.Forall_cons _ (λ it, P it.2) (nm, item) es' (node_ind item) (go es')
            end) entries)
  | Other => HOther
  end.

End NodeInd.

(** Every entry present before is still there, unchanged. *)
Definition keeps (s s' : State) : Prop :=
  ∀ p, is_Some (disk s !! p) → disk s' !! p = disk s !! p.

(** The counters only grow. *)
Definition stats_le (c c' : Stats) : Prop :=
  (folders_copied c ≤ folders_copied c')%nat ∧
  (folders_renamed c ≤ folders_renamed c')%nat ∧
  (files_copied c ≤ files_copied c')%nat ∧
  (files_renamed c ≤ files_renamed c')%nat ∧
  (files_skipped c ≤ files_skipped c')%nat ∧
  (errors c ≤ errors c')%nat.

(** [s'] comes from [s] by creating entries strictly below [d] and
    bumping counters: nothing that was there is lost or changed. *)
Definition effect (d : path) (s s' : State) : Prop :=
  keeps s s' ∧
  (∀ p, disk s !! p = None → is_Some (disk s' !! p) → Path.below d p = true) ∧
  stats_le (stats s) (stats s').

(** The state in which [copy_folder_tree] enters its loop: the folder
    named by [find_available_name] (the wanted name itself when it is
    free) has been made, and the counters bumped. *)
Definition entered (nm : string) (dest_parent : path) (s : State) : State :=
  let dest_folder := (dest_parent / nm)%list in
  let s1 := if exists_ (disk s) dest_folder then incr_folders_renamed s else s in
  incr_folders_copied
    (set_disk (<[find_available_name (disk s) dest_folder true := EDir]> (disk s)) s1).

(** Nothing lies at or below a path. *)
Definition vacant (fs : filesystem) (p : path) : bool :=
  forallb (λ k, negb (bool_decide (p `prefix_of` k))) (map_to_list fs).*1.

(** Sum of [f] over the entries of a folder. *)
Definition sum_entries {A} (f : A → nat) (es : list (string * A)) : nat :=
  foldr (λ '(_, x) acc, (f x + acc)%nat) 0%nat es.

(** Entries of a source tree that cannot be read: files that do not open,
    and folders that cannot be listed (nothing below those is reached). *)
Fixpoint failures (n : node) : nat :=
  match n with
  | File r _ => if r then 0 else 1
  | Dir l es => if l then sum_entries failures es else 1
  | Other => 0
  end.

(** Folders of a source tree that the walk reaches. *)
Fixpoint count_dirs (n : node) : nat :=
  match n with
  | Dir l es => S (if l then sum_entries count_dirs es else 0)
  | _ => 0
  end.

(** The first entry named [x], mapped through [f]. *)
Definition assoc_with {A B} (f : A → option B) (x : string)
    (es : list (string * A)) : option B :=
  foldr (λ '(nm, item) rest, if decide (nm = x) then f item else rest) None es.

(** A source tree that reads without failure: every file opens, every
    folder lists, and the names in a folder are distinct. *)
Fixpoint clean (n : node) : bool :=
  match n with
  | File r _ => r
  | Dir l es =>
      l && bool_decide (NoDup es.*1) && forallb (λ '(_, item), clean item) es
  | Other => true
  end.

(** What a faithful copy of the tree [n] holds at the relative path [q]. *)
Fixpoint image (n : node) (q : path) {struct n} : option entry :=
  match n with
  | File _ data => match q with [] => Some (EFile true data) | _ => None end
  | Dir _ es =>
      match q with
      | [] => Some EDir
      | x :: q' => assoc_with (λ item, image item q') x es
      end
  | Other => None
  end.

(** An entry that fails on its own: a file that does not open, a folder
    that does not list. *)
Definition unreadable (n : node) : bool :=
  match n with
  | File false _ | Dir false _ => true
  | _ => false
  end.

(** Whether [copy_folder_tree] of [folder_consolidator.py] returns
    [True]: its source listed. *)
Definition listed (src : node) : bool :=
  match src with Dir true _ => true | _ => false end.

(** Folders that one source root of [consolidate] brings in. *)
Definition root_dirs (source : option node) : nat :=
  match source with
  | Some (Dir true es) => sum_entries count_dirs es
  | _ => 0
  end.

(** A source folder that holds regular files only. *)
Definition only_files (es : list (string * node)) : bool :=
  forallb (λ '(_, item), match item with File _ _ => true | _ => false end) es.

Section Steps.

Variable md5 : list byte → string.

(** The effect of one turn of the loop over a source folder's entries,
    and of one turn of the loop over the source roots. *)
Definition step_item (dest : path) (s : State) (it : string * node) : State :=
  exec (copy_item md5 (copy_folder_tree md5) dest it) s.

Definition step_root (master : path) (s : State) (source : option node) : State :=
  match source with
  | Some (Dir true entries) => foldl (step_item master) s entries
  | _ => s
  end.

(** One source root of [folder_consolidator.py]'s [consolidate]. *)
Definition step_source (master : path) (s : State) (source : string * option node) : State :=
  match source.2 with
  | None => incr_errors s
  | Some src => exec (copy_folder_tree md5 source.1 src master) s
  end.

(** The replication property of one entry. *)
Definition replicates (item : node) : Prop :=
  ∀ (inm : string) (dest : path) (s : State),
    is_dir (disk s) dest = true →
    clean item = true →
    (∀ q, disk s !! (dest / inm ++ q)%list = None) →
    ∀ q, disk (step_item dest s (inm, item)) !! (dest / inm ++ q)%list = image item q.

(** The destination holds, for the entry, a file with the same digest. *)
Definition settled (master_folder : path) (fs : filesystem) (it : string * node) : Prop :=
  are_files_identical md5 (read_node it.2) (read_file fs (master_folder / it.1)) = true.

End Steps.

(** ** The cleaner *)

(** Deeper paths come first. *)
Definition deeper_first (a b : path) : Prop := (Path.depth b ≤ Path.depth a)%nat.

(** The disk once the folders in [done] have been visited: those of
    them that held no file are gone, nothing else has changed. *)
Definition pruned_to (fs0 : filesystem) (done : list path) (fs : filesystem) : Prop :=
  ∀ p, fs !! p =
       if decide (p ∈ done ∧ Cleaner.is_folder_empty fs0 p = true) then None else fs0 !! p.

(** * Further vocabulary *)

(** Files of a source tree that open and that the walk reaches. *)
Fixpoint readable_files (n : node) : nat :=
  match n with
  | File r _ => if r then 1 else 0
  | Dir l es => if l then sum_entries readable_files es else 0
  | Other => 0
  end.

(** What one source root of [consolidate_auto.py] holds in unreadable
    entries and in readable files; a root that is missing or cannot be
    listed is passed over. *)
Definition root_failures (source : option node) : nat :=
  match source with
  | Some (Dir true es) => sum_entries failures es
  | _ => 0
  end.
Definition root_files (source : option node) : nat :=
  match source with
  | Some (Dir true es) => sum_entries readable_files es
  | _ => 0
  end.

(** The three counters a file that was read ends in. *)
Definition files_handled (c : Stats) : nat :=
  (files_copied c + files_renamed c + files_skipped c)%nat.

(** Every entry but the anchor lies in a directory. *)
Definition tree_shaped (fs : filesystem) : Prop :=
  ∀ p, is_Some (fs !! p) → p ≠ [] → is_dir fs (Path.parent p) = true.


(** A source folder that holds folders only. *)
Definition only_folders (es : list (string * node)) : bool :=
  forallb (λ '(_, item), match item with Dir _ _ => true | _ => false end) es.

(** What one source root of [folder_consolidator.py] adds to [errors]:
    one when it is missing or is no directory that lists, else what it
    holds in unreadable entries. *)
Definition source_failures (source : string * option node) : nat :=
  match source.2 with
  | Some (Dir l es) => failures (Dir l es)
  | _ => 1
  end.
Definition source_files (source : string * option node) : nat :=
  match source.2 with
  | Some (Dir l es) => readable_files (Dir l es)
  | _ => 0
  end.

(** The counters that tell of a name found taken are as before. *)
Definition no_collision (s s' : State) : Prop :=
  folders_renamed (stats s') = folders_renamed (stats s) ∧
  files_renamed (stats s') = files_renamed (stats s) ∧
  files_skipped (stats s') = files_skipped (stats s).

(** No collision on copying the entry to a free place. *)
Definition copies_quietly (md5 : list byte → string) (item : node) : Prop :=
  ∀ (inm : string) (dest : path) (s : State),
    is_dir (disk s) dest = true →
    clean item = true →
    (∀ q, disk s !! (dest / inm ++ q)%list = None) →
    no_collision s (step_item md5 dest s (inm, item)).

(** ** The cleaner, over several roots *)



(** A folder is never listed before a folder below it. *)
Definition bottom_up (a b : path) : Prop := Path.below a b = false.

(** [tree_shaped], computed. *)
Definition tree_shapedb (fs : filesystem) : bool :=
  forallb (λ p, bool_decide (p = []) || is_dir fs (Path.parent p)) (map_to_list fs).*1.

(** What the constructor leaves at [p]: what was there, and a new
    directory where the master folder or a folder above it was missing. *)
Definition with_ancestors (master_folder : path) (fs : filesystem) (p : path) : option entry :=
  match fs !! p with
  | Some e => Some e
  | None => if bool_decide (p `prefix_of` master_folder) then Some EDir else None
  end.

(** * Sample inputs *)

(** A stand-in digest for the examples: one-to-one and never empty. *)
Definition sample_md5 (data : list byte) : string :=
  String "m" (string_of_list_byte data).

Definition master : path := ["master"].

(** An empty master folder, as [FolderConsolidator] leaves it. *)
Definition empty_master : State := mkState {[ master := EDir ]} zero_stats.

(** A master folder that already holds [a.txt], a folder [Photos] and a
    folder [v1.0]. *)
Definition used_master : State :=
  mkState
    (<[ (master / "a.txt")%list := EFile true [x01] ]>
     (<[ (master / "Photos")%list := EDir ]>
      (<[ (master / "v1.0")%list := EDir ]>
       {[ master := EDir ]})))
    zero_stats.

(** Two source roots that each hold a folder [Photos]. *)
Definition root_a : node :=
  Dir true [("Photos", Dir true [("a.jpg", File true [x01]); ("b.jpg", File true [x02])])].
Definition root_b : node :=
  Dir true [("Photos", Dir true [("c.jpg", File true [x03]); ("d.jpg", File true [x04])])].

(** The master folder after the first of them. *)
Definition after_root_a : State :=
  exec (consolidate sample_md5 master [Some root_a]) empty_master.

(** A source folder whose middle entry cannot be listed. *)
Definition before_bad : list (string * node) :=
  [("A", Dir true [("f", File true [x01])])].
Definition after_bad : list (string * node) :=
  [("C", Dir true [("g", File true [x02])])].

(** A source root of files, and one with a subfolder. *)
Definition flat_root : list (string * node) :=
  [("a.txt", File true [x01]); ("b.txt", File true [x02])].
Definition deep_root : node :=
  Dir true [("A", Dir true [("f", File true [x01])])].

(** The tree [A/B/C], [A/D/f] below the root. *)
Definition sample_tree : Cleaner.State :=
  Cleaner.mkState
    (list_to_map
       [([], EDir); (["A"], EDir); (["A"; "B"], EDir); (["A"; "B"; "C"], EDir);
        (["A"; "D"], EDir); (["A"; "D"; "f"], EFile true [x01])])
    (Cleaner.mkStats 0 0).


(** * Properties *)

(** ** Paths and names *)

Lemma parent_join (p : path) (n : string) : Path.parent (p / n) = p.
Proof. unfold Path.parent, Path.join. apply removelast_last. Qed.

Lemma name_join (p : path) (n : string) : Path.name (p / n) = n.
Proof. unfold Path.name, Path.join. apply last_last. Qed.

Lemma join_inj (p q : path) (n m : string) : (p / n = q / m)%list → p = q ∧ n = m.
Proof. unfold Path.join. intros H. by apply app_inj_tail in H. Qed.

Lemma join_parent_name (p : path) : p ≠ [] → (Path.parent p / Path.name p)%list = p.
Proof.
  intros Hp. unfold Path.parent, Path.join, Path.name.
  symmetry. by apply app_removelast_last.
Qed.

Lemma string_app_length (s t : string) :
  String.length (s +:+ t) = (String.length s + String.length t)%nat.
Proof. induction s as [|a s IH]; simpl; [done | by rewrite IH]. Qed.

Lemma string_app_inv_tail (s1 s2 t : string) : s1 +:+ t = s2 +:+ t → s1 = s2.
Proof.
  revert s2. induction s1 as [|a s1 IH]; intros [|b s2] H; simpl in *.
  - done.
  - apply (f_equal String.length) in H. simpl in H.
    rewrite !string_app_length in H. simpl in H. exfalso. lia.
  - apply (f_equal String.length) in H. simpl in H.
    rewrite !string_app_length in H. simpl in H. exfalso. lia.
  - injection H as -> H. f_equal. by apply IH.
Qed.

Lemma candidate_inj (parent : path) (stem suffix : string) (c c' : nat) :
  candidate parent stem suffix c = candidate parent stem suffix c' → c = c'.
Proof.
  unfold candidate. intros H. apply join_inj in H as [_ H].
  apply String.app_inj in H. apply String.app_inj in H.
  apply string_app_inv_tail in H. by apply pretty_nat_inj in H.
Qed.

Lemma candidate_parent (parent : path) (stem suffix : string) (c : nat) :
  Path.parent (candidate parent stem suffix c) = parent.
Proof. apply parent_join. Qed.

Lemma exists_true (fs : filesystem) (p : path) :
  exists_ fs p = true ↔ is_Some (fs !! p).
Proof. unfold exists_. apply bool_decide_eq_true. Qed.

Lemma exists_false (fs : filesystem) (p : path) :
  exists_ fs p = false ↔ fs !! p = None.
Proof.
  unfold exists_. rewrite bool_decide_eq_false. by rewrite eq_None_not_Some.
Qed.

(** ** The sibling-name search *)

Section FindLoop.

Context (fs : filesystem) (parent : path) (stem suffix : string).

Local Abbreviation cand := (candidate parent stem suffix).
Local Abbreviation loop := (find_loop fs parent stem suffix).

(** A loop that ends on a taken path has found every candidate of its
    range taken. *)
Lemma find_loop_taken (fuel c : nat) :
  exists_ fs (loop fuel c) = true →
  ∀ j, (c ≤ j ≤ c + fuel)%nat → exists_ fs (cand j) = true.
Proof.
  revert c. induction fuel as [|fuel IH]; intros c; simpl.
  - destruct (exists_ fs (cand c)) eqn:E; simpl; [|congruence].
    intros _ j Hj. by replace j with c by lia.
  - destruct (exists_ fs (cand c)) eqn:E; simpl; [|congruence].
    intros H j Hj. destruct (decide (j = c)) as [->|]; [done|].
    apply (IH (S c) H). lia.
Qed.

(** The candidates of a range are distinct, so a filesystem that holds
    them all has at least that many entries. *)
Lemma candidates_size (c n : nat) :
  (∀ j, (c ≤ j < c + n)%nat → exists_ fs (cand j) = true) → (n ≤ size fs)%nat.
Proof.
  intros H.
  assert (cand <$> seq c n ⊆+ elements (dom fs)) as Hsub.
  { apply NoDup_submseteq.
    - apply NoDup_fmap_2; [|apply NoDup_seq].
      intros x y. apply candidate_inj.
    - intros p [j [-> Hj]]%list_elem_of_fmap.
      apply elem_of_seq in Hj. apply elem_of_elements, elem_of_dom.
      apply exists_true, H. lia. }
  apply submseteq_length in Hsub.
  rewrite length_fmap, length_seq in Hsub.
  by rewrite <- size_dom.
Qed.

(** With [size fs] as fuel the search ends on a free path. *)
Lemma find_loop_free (c : nat) : exists_ fs (loop (size fs) c) = false.
Proof.
  destruct (exists_ fs (loop (size fs) c)) eqn:E; [|done].
  pose proof (find_loop_taken _ _ E) as H.
  assert (S (size fs) ≤ size fs)%nat; [|exfalso; lia].
  apply (candidates_size c). intros j Hj. apply H. lia.
Qed.

(** The search returns the candidate of some counter and has found
    every earlier one taken. *)
Lemma find_loop_first (fuel c : nat) :
  ∃ k, (c ≤ k)%nat ∧ loop fuel c = cand k ∧
       ∀ j, (c ≤ j < k)%nat → exists_ fs (cand j) = true.
Proof.
  revert c. induction fuel as [|fuel IH]; intros c; simpl.
  - exists c. split; [lia|]. split; [by destruct (exists_ fs (cand c))|].
    intros j Hj. lia.
  - destruct (exists_ fs (cand c)) eqn:E; simpl.
    + destruct (IH (S c)) as (k & Hk & Heq & Hall).
      exists k. split; [lia|]. split; [done|].
      intros j Hj. destruct (decide (j = c)) as [->|]; [done|].
      apply Hall. lia.
    + exists c. split; [lia|]. split; [done|]. intros j Hj. lia.
Qed.

End FindLoop.

Lemma find_available_name_free (fs : filesystem) (target : path) (is_folder : bool) :
  fs !! find_available_name fs target is_folder = None.
Proof.
  apply exists_false. unfold find_available_name.
  destruct (exists_ fs target) eqn:E; simpl; [|done].
  apply find_loop_free.
Qed.

Lemma find_available_name_parent (fs : filesystem) (target : path) (is_folder : bool) :
  Path.parent (find_available_name fs target is_folder) = Path.parent target.
Proof.
  unfold find_available_name.
  destruct (exists_ fs target) eqn:E; simpl; [|done].
  destruct (find_loop_first fs (Path.parent target) (Path.stem target)
              (if negb is_folder then Path.suffix target else EmptyString) (size fs) 2)
    as (k & _ & -> & _).
  apply candidate_parent.
Qed.

(** ** States *)

Lemma set_disk_id (s : State) : set_disk (disk s) s = s.
Proof. by destruct s. Qed.

Lemma is_dir_lookup (fs : filesystem) (p : path) :
  is_dir fs p = true ↔ fs !! p = Some EDir.
Proof.
  unfold is_dir. destruct (fs !! p) as [[]|]; split; congruence.
Qed.

Lemma is_dir_None (fs : filesystem) (p : path) : fs !! p = None → is_dir fs p = false.
Proof. unfold is_dir. by intros ->. Qed.

(** ** [mkdir] *)

Lemma mkdir_rev_dir (rp : list string) (fs : filesystem) :
  fs !! rev rp = Some EDir → mkdir_rev rp fs = Some fs.
Proof. intros H. destruct rp; simpl in *; by rewrite H. Qed.

Lemma mkdir_p_dir (p : path) (s : State) :
  is_dir (disk s) p = true → mkdir_p p s = (Some tt, s).
Proof.
  intros H%is_dir_lookup. unfold mkdir_p.
  rewrite mkdir_rev_dir by (by rewrite rev_involutive).
  by rewrite set_disk_id.
Qed.

Lemma mkdir_p_new (p : path) (n : string) (s : State) :
  is_dir (disk s) p = true → disk s !! (p / n)%list = None →
  mkdir_p (p / n) s = (Some tt, set_disk (<[(p / n)%list := EDir]> (disk s)) s).
Proof.
  intros Hp%is_dir_lookup Hn. unfold mkdir_p, Path.join in *.
  rewrite rev_unit. simpl. rewrite rev_involutive, Hn.
  rewrite mkdir_rev_dir by (by rewrite rev_involutive). done.
Qed.

(** ** [copy2] *)

Lemma copy2_new (nm : string) (src : node) (data : list byte) (dst : path) (s : State) :
  read_node src = Some data →
  disk s !! dst = None → is_dir (disk s) (Path.parent dst) = true →
  copy2 nm src dst s = (Some tt, set_disk (<[dst := EFile true data]> (disk s)) s).
Proof.
  intros Hsrc Hdst Hpar. destruct src as [[] d|l es|]; simplify_eq/=.
  unfold copy2. rewrite (is_dir_None _ _ Hdst). simpl.
  by rewrite (is_dir_None _ _ Hdst), Hpar.
Qed.

Lemma copy2_unreadable (nm : string) (src : node) (dst : path) (s : State) :
  read_node src = None → copy2 nm src dst s = (None, s).
Proof. intros Hsrc. by destruct src as [[] d|l es|]. Qed.

(** ** Running [copy_file] *)

Section CopyFile.

Variable md5 : list byte → string.

Lemma are_files_identical_agree (f1 f2 : option (list byte)) :
  are_files_identical' md5 f1 f2 = are_files_identical md5 f1 f2.
Proof.
  unfold are_files_identical, are_files_identical'.
  by destruct (truthy _ && truthy _).
Qed.

(** Where the folder of the destination exists, [copy_file] returns:
    it takes exactly one of its four ways out. *)
Lemma copy_file_run (nm : string) (src : node) (dest : path) (s : State) :
  is_dir (disk s) (Path.parent dest) = true →
  copy_file md5 nm src dest s =
    if negb (exists_ (disk s) dest) then
      match read_node src with
      | Some data =>
          (Some true, incr_files_copied (set_disk (<[dest := EFile true data]> (disk s)) s))
      | None => (Some false, incr_errors s)
      end
    else if are_files_identical md5 (read_node src) (read_file (disk s) dest) then
      (Some true, incr_files_skipped s)
    else
      match read_node src with
      | Some data =>
          (Some true,
           incr_files_renamed
             (set_disk (<[find_available_name (disk s) dest false := EFile true data]> (disk s)) s))
      | None => (Some false, incr_errors s)
      end.
Proof.
  intros Hpar. unfold copy_file, bind.
  rewrite (mkdir_p_dir _ _ Hpar).
  unfold try_except, gets, modify, ret.
  destruct (exists_ (disk s) dest) eqn:Hex; simpl.
  - destruct (are_files_identical md5 _ _) eqn:Hid; [done|].
    pose proof (find_available_name_free (disk s) dest false) as Hfree.
    pose proof (find_available_name_parent (disk s) dest false) as Hp.
    destruct (read_node src) as [data|] eqn:Hsrc.
    + rewrite (copy2_new _ _ data) by (done || by rewrite Hp). done.
    + by rewrite copy2_unreadable.
  - apply exists_false in Hex.
    destruct (read_node src) as [data|] eqn:Hsrc.
    + by rewrite (copy2_new _ _ data).
    + by rewrite copy2_unreadable.
Qed.

End CopyFile.

(** ** Loops *)

Lemma for_each_nil {A} (body : A → M unit) (s : State) :
  for_each [] body s = (Some tt, s).
Proof. done. Qed.

Lemma for_each_cons {A} (x : A) (l : list A) (body : A → M unit) (s : State) :
  for_each (x :: l) body s =
    match body x s with
    | (Some _, s') => for_each l body s'
    | (None, s') => (None, s')
    end.
Proof. done. Qed.

(** A loop whose body never raises while [Inv] holds runs through the
    whole list: it is the fold of the body's effect. *)
Lemma for_each_foldl {A} (Inv : State → Prop) (l : list A) (body : A → M unit) (s : State) :
  Forall (λ x, ∀ s, Inv s → result (body x) s = Some tt ∧ Inv (exec (body x) s)) l →
  Inv s →
  for_each l body s = (Some tt, foldl (λ s x, exec (body x) s) s l) ∧
  Inv (foldl (λ s x, exec (body x) s) s l).
Proof.
  intros Hall. revert s. induction Hall as [|x l Hx _ IH]; intros s Hs.
  - done.
  - rewrite for_each_cons. simpl.
    destruct (Hx s Hs) as [Hr Hi]. unfold result, exec in *.
    destruct (body x s) as [[[]|] s']; simpl in *; [|done].
    by apply IH.
Qed.

(** ** Running [copy_folder_tree] *)

Lemma keeps_refl (s : State) : keeps s s.
Proof. by intros p _. Qed.

Lemma keeps_trans (s1 s2 s3 : State) : keeps s1 s2 → keeps s2 s3 → keeps s1 s3.
Proof.
  intros H12 H23 p Hp. rewrite <- (H12 p Hp). apply H23. by rewrite (H12 p Hp).
Qed.

Lemma keeps_write (s : State) (p : path) (e : entry) :
  disk s !! p = None → keeps s (set_disk (<[p := e]> (disk s)) s).
Proof.
  intros Hp q [x Hq]. simpl. rewrite lookup_insert_ne; [done|]. congruence.
Qed.

Lemma keeps_is_dir (s s' : State) (p : path) :
  keeps s s' → is_dir (disk s) p = true → is_dir (disk s') p = true.
Proof.
  intros H Hp. apply is_dir_lookup in Hp. apply is_dir_lookup.
  rewrite H; [done|]. by rewrite Hp.
Qed.

Lemma below_spec (d p : path) : Path.below d p = true ↔ d `prefix_of` p ∧ p ≠ d.
Proof.
  unfold Path.below. rewrite andb_true_iff, negb_true_iff.
  rewrite bool_decide_eq_true, bool_decide_eq_false. intuition congruence.
Qed.

Lemma below_join (d : path) (n : string) : Path.below d (d / n) = true.
Proof.
  apply below_spec. unfold Path.join. split; [by apply prefix_app_r|].
  intros H. apply (f_equal length) in H. rewrite length_app in H. simpl in H. lia.
Qed.

Lemma below_trans (d1 d2 p : path) :
  Path.below d1 d2 = true → Path.below d2 p = true → Path.below d1 p = true.
Proof.
  rewrite !below_spec. intros [H1 N1] [H2 N2]. split; [by etrans|].
  intros ->. apply N1. by apply (anti_symm prefix).
Qed.

Lemma effect_refl (d : path) (s : State) : effect d s s.
Proof.
  split; [apply keeps_refl|]. split.
  - intros p Hn [x Hx]. congruence.
  - unfold stats_le. lia.
Qed.

Lemma effect_trans (d : path) (s1 s2 s3 : State) :
  effect d s1 s2 → effect d s2 s3 → effect d s1 s3.
Proof.
  intros (K12 & N12 & L12) (K23 & N23 & L23).
  split; [by eapply keeps_trans|]. split.
  - intros p H1 H3. destruct (disk s2 !! p) as [e|] eqn:H2.
    + apply N12; by eauto.
    + by apply N23.
  - unfold stats_le in *. lia.
Qed.

Lemma effect_down (d : path) (n : string) (s s' : State) :
  effect (d / n) s s' → effect d s s'.
Proof.
  intros (K & N & L). split; [done|]. split; [|done].
  intros p H1 H2. eapply below_trans; [apply below_join|]. by apply N.
Qed.

Lemma effect_write (d : path) (n : string) (s : State) (e : entry) :
  disk s !! (d / n)%list = None →
  effect d s (set_disk (<[(d / n)%list := e]> (disk s)) s).
Proof.
  intros Hn. split; [by apply keeps_write|]. split.
  - intros p H1 [x Hx]. simpl in Hx.
    destruct (decide ((d / n)%list = p)) as [<-|Hne]; [apply below_join|].
    rewrite lookup_insert_ne in Hx by done. congruence.
  - simpl. unfold stats_le. lia.
Qed.

Lemma effect_stats (d : path) (s : State) (c : Stats) :
  stats_le (stats s) c → effect d s (mkState (disk s) c).
Proof.
  intros H. split; [by intros p _|]. split; [|done].
  intros p Hn [x Hx]. simpl in *. congruence.
Qed.

Lemma find_available_name_join (fs : filesystem) (p : path) (nm : string) (b : bool) :
  ∃ n, find_available_name fs (p / nm) b = (p / n)%list.
Proof.
  unfold find_available_name. destruct (exists_ fs (p / nm)); simpl; [|by eexists].
  rewrite parent_join.
  destruct (find_loop_first fs p (Path.stem (p / nm))
              (if negb b then Path.suffix (p / nm) else EmptyString) (size fs) 2)
    as (k & _ & -> & _).
  by eexists.
Qed.

Lemma find_available_name_absent (fs : filesystem) (p : path) (b : bool) :
  exists_ fs p = false → find_available_name fs p b = p.
Proof. intros H. unfold find_available_name. by rewrite H. Qed.

(** The lines of [copy_folder_tree] before its [try], followed by
    whatever [body] does with the destination folder. *)
Lemma enter_folder_run {A} (nm : string) (dest_parent : path) (body : path → M A) (s : State) :
  is_dir (disk s) dest_parent = true →
  (let* dest_exists := gets (λ s, exists_ (disk s) (dest_parent / nm)%list) in
   let* dest_folder :=
     (if dest_exists then
        let* new_dest_folder :=
          gets (λ s, find_available_name (disk s) (dest_parent / nm)%list true) in
        modify incr_folders_renamed ;;;
        ret new_dest_folder
      else ret (dest_parent / nm)%list) in
   mkdir_p dest_folder ;;;
   modify incr_folders_copied ;;;
   body dest_folder) s =
  body (find_available_name (disk s) (dest_parent / nm) true) (entered nm dest_parent s).
Proof.
  intros Hpar.
  pose proof (find_available_name_free (disk s) (dest_parent / nm) true) as Hfree.
  destruct (find_available_name_join (disk s) dest_parent nm true) as [n Hn].
  unfold entered, bind, gets, modify, ret.
  destruct (exists_ (disk s) (dest_parent / nm)) eqn:Hex; simpl.
  - rewrite Hn in *. rewrite mkdir_p_new by done. done.
  - rewrite find_available_name_absent in * by done.
    rewrite mkdir_p_new by done. done.
Qed.

Section CopyFolderTree.

Variable md5 : list byte → string.

Lemma copy_folder_tree_enter (nm : string) (src : node) (dest_parent : path) (s : State) :
  is_dir (disk s) dest_parent = true →
  copy_folder_tree md5 nm src dest_parent s =
    try_except
      match src with
      | Dir true entries =>
          for_each entries
            (copy_item md5 (copy_folder_tree md5)
               (find_available_name (disk s) (dest_parent / nm) true))
      | _ => raise
      end
      (modify incr_errors)
      (entered nm dest_parent s).
Proof.
  intros Hpar.
  destruct src as [r data|l entries|]; simpl;
    by rewrite enter_folder_run.
Qed.

(** *** A rule for every run of the merge engine

    [R d s s'] is meant as: [s'] comes from [s] by bumping counters and
    creating entries below the directory [d]. Any such relation that is
    a preorder and never loses an entry holds across [copy_file],
    [copy_folder_tree] and [consolidate]; and these return (no
    exception leaves them) whenever the destination parent is a
    directory. *)
Section Rule.

Variable R : path → State → State → Prop.
Hypothesis R_refl : ∀ d s, R d s s.
Hypothesis R_trans : ∀ d s1 s2 s3, R d s1 s2 → R d s2 s3 → R d s1 s3.
Hypothesis R_keeps : ∀ d s s', R d s s' → keeps s s'.
Hypothesis R_down : ∀ d n s s', R (d / n)%list s s' → R d s s'.
Hypothesis R_write : ∀ d n s e,
  is_dir (disk s) d = true →
  disk s !! (d / n)%list = None →
  R d s (set_disk (<[(d / n)%list := e]> (disk s)) s).
Hypothesis R_folders_copied : ∀ d s, R d s (incr_folders_copied s).
Hypothesis R_folders_renamed : ∀ d s, R d s (incr_folders_renamed s).
Hypothesis R_files_copied : ∀ d s, R d s (incr_files_copied s).
Hypothesis R_files_renamed : ∀ d s, R d s (incr_files_renamed s).
Hypothesis R_files_skipped : ∀ d s, R d s (incr_files_skipped s).
Hypothesis R_errors : ∀ d s, R d s (incr_errors s).

Lemma copy_file_rule (nm inm : string) (src : node) (d : path) (s : State) :
  is_dir (disk s) d = true →
  is_Some (result (copy_file md5 nm src (d / inm)) s) ∧
  R d s (exec (copy_file md5 nm src (d / inm)) s).
Proof.
  intros Hpar. unfold result, exec.
  rewrite copy_file_run by (by rewrite parent_join).
  destruct (exists_ (disk s) (d / inm)) eqn:Hex; simpl.
  - destruct (are_files_identical md5 _ _); simpl; [by eauto|].
    destruct (read_node src); simpl; [|by eauto].
    split; [by eauto|]. eapply R_trans; [|apply R_files_renamed].
    pose proof (find_available_name_free (disk s) (d / inm) false) as Hfree.
    destruct (find_available_name_join (disk s) d inm false) as [n Hn].
    rewrite Hn in *. by apply R_write.
  - destruct (read_node src); simpl; [|by eauto].
    split; [by eauto|]. eapply R_trans; [|apply R_files_copied].
    apply R_write; [done|by apply exists_false].
Qed.

Lemma entered_rule (nm : string) (d : path) (s : State) :
  is_dir (disk s) d = true →
  R d s (entered nm d s) ∧
  is_dir (disk (entered nm d s)) (find_available_name (disk s) (d / nm) true) = true.
Proof.
  intros Hd. unfold entered. split.
  - pose proof (find_available_name_free (disk s) (d / nm) true) as Hfree.
    destruct (find_available_name_join (disk s) d nm true) as [n Hn].
    rewrite Hn in *.
    eapply R_trans; [|apply R_folders_copied].
    destruct (exists_ (disk s) (d / nm)).
    + eapply R_trans; [apply R_folders_renamed|].
      by apply (R_write d n (incr_folders_renamed s)).
    + by apply R_write.
  - simpl. apply is_dir_lookup.
    destruct (exists_ (disk s) (d / nm)); apply lookup_insert_eq.
Qed.

Lemma copy_folder_tree_rule (src : node) :
  ∀ (nm : string) (d : path) (s : State),
    is_dir (disk s) d = true →
    result (copy_folder_tree md5 nm src d) s = Some tt ∧
    R d s (exec (copy_folder_tree md5 nm src d) s).
Proof.
  induction src as [r data|l entries IH|] using node_ind;
    intros nm d s Hpar; unfold result, exec;
    rewrite copy_folder_tree_enter by done;
    destruct (entered_rule nm d s Hpar) as [HR Hdir];
    try (unfold try_except, raise, modify; simpl; split; [done|];
         by eapply R_trans; [apply HR|apply R_errors]).
  destruct l;
    [|unfold try_except, raise, modify; simpl; split; [done|];
      by eapply R_trans; [apply HR|apply R_errors]].
  destruct (find_available_name_join (disk s) d nm true) as [n Hn].
  rewrite Hn in *.
  set (s2 := entered nm d s) in *.
  destruct (for_each_foldl
              (λ s', is_dir (disk s') (d / n) = true ∧ R (d / n)%list s2 s')
              entries (copy_item md5 (copy_folder_tree md5) (d / n)) s2)
    as [Hrun [_ Hfin]]; [| by split |].
  - eapply Forall_impl; [apply IH|].
    intros [inm item] Hitem s' [Hd HR']. simpl in Hitem.
    destruct item as [r data|l' es|]; simpl.
    + destruct (copy_file_rule inm inm (File r data) (d / n) s' Hd) as [[b Hb] HRb].
      unfold result, exec, bind, ret in *.
      destruct (copy_file md5 inm (File r data) (d / n / inm) s') as [[b'|] s'']; simpl in *;
        [|done].
      split; [done|]. split; [|by eapply R_trans].
      by eapply keeps_is_dir; [eapply R_keeps, HRb|].
    + destruct (Hitem inm (d / n)%list s' Hd) as [Hres HRd].
      split; [done|]. split; [|by eapply R_trans].
      by eapply keeps_is_dir; [eapply R_keeps, HRd|].
    + unfold result, exec, ret. simpl. done.
  - unfold try_except. rewrite Hrun. simpl. split; [done|].
    eapply R_trans; [apply HR|]. by apply R_down in Hfin.
Qed.

(** The loop over the entries of a source folder runs through all of
    them. *)
Lemma copy_items_rule (dest : path) (entries : list (string * node)) (s : State) :
  is_dir (disk s) dest = true →
  for_each entries (copy_item md5 (copy_folder_tree md5) dest) s =
    (Some tt, foldl (step_item md5 dest) s entries) ∧
  R dest s (foldl (step_item md5 dest) s entries).
Proof.
  intros Hd.
  destruct (for_each_foldl
              (λ s', is_dir (disk s') dest = true ∧ R dest s s')
              entries (copy_item md5 (copy_folder_tree md5) dest) s)
    as [Hrun [_ Hfin]]; [| by split | by split].
  apply Forall_forall. intros [inm item] _ s' [Hd' HR'].
  destruct item as [r data|l' es|]; simpl.
  - destruct (copy_file_rule inm inm (File r data) dest s' Hd') as [[b Hb] HRb].
    unfold result, exec, bind, ret in *.
    destruct (copy_file md5 inm (File r data) (dest / inm) s') as [[b'|] s'']; simpl in *;
      [|done].
    split; [done|]. split; [|by eapply R_trans].
    by eapply keeps_is_dir; [eapply R_keeps, HRb|].
  - destruct (copy_folder_tree_rule (Dir l' es) inm dest s' Hd') as [Hres HRd].
    split; [done|]. split; [|by eapply R_trans].
    by eapply keeps_is_dir; [eapply R_keeps, HRd|].
  - unfold result, exec, ret. simpl. done.
Qed.

(** [consolidate] runs through all its source roots. *)
Lemma consolidate_rule (master : path) (sources : list (option node)) (s : State) :
  is_dir (disk s) master = true →
  consolidate md5 master sources s =
    (Some tt, foldl (step_root md5 master) s sources) ∧
  R master s (foldl (step_root md5 master) s sources).
Proof.
  intros Hd.
  assert (∀ source s', is_dir (disk s') master = true →
            match source with
            | None => ret tt
            | Some root =>
                try_except
                  match root with
                  | Dir true entries =>
                      for_each entries (copy_item md5 (copy_folder_tree md5) master)
                  | _ => raise
                  end
                  (ret tt)
            end s' = (Some tt, step_root md5 master s' source) ∧
            R master s' (step_root md5 master s' source)) as Hbody.
  { intros [[r data|[] entries|]|] s' Hd'; simpl; try done.
    destruct (copy_items_rule master entries s' Hd') as [Hrun HR'].
    unfold try_except. by rewrite Hrun. }
  unfold consolidate. revert s Hd.
  induction sources as [|source sources IH]; intros s Hd.
  - split; [done|apply R_refl].
  - rewrite for_each_cons. destruct (Hbody source s Hd) as [Hb HRb].
    rewrite Hb. simpl.
    destruct (IH (step_root md5 master s source)) as [Hrun HR'].
    { by eapply keeps_is_dir; [eapply R_keeps, HRb|]. }
    split; [done|]. by eapply R_trans.
Qed.

End Rule.

(** *** The rule at work *)

Local Ltac effect_rule lem :=
  apply lem;
  first [ apply effect_refl | apply effect_trans | apply effect_down
        | (intros; by apply effect_write) | by intros ???(?&?&?)
        | intros; apply effect_stats; unfold stats_le; simpl; lia ].

Lemma copy_file_effect (nm inm : string) (src : node) (d : path) (s : State) :
  is_dir (disk s) d = true →
  is_Some (result (copy_file md5 nm src (d / inm)) s) ∧
  effect d s (exec (copy_file md5 nm src (d / inm)) s).
Proof. effect_rule copy_file_rule. Qed.

Lemma copy_folder_tree_effect (nm : string) (src : node) (d : path) (s : State) :
  is_dir (disk s) d = true →
  result (copy_folder_tree md5 nm src d) s = Some tt ∧
  effect d s (exec (copy_folder_tree md5 nm src d) s).
Proof. revert nm d s. effect_rule copy_folder_tree_rule. Qed.

Lemma copy_items_effect (dest : path) (entries : list (string * node)) (s : State) :
  is_dir (disk s) dest = true →
  for_each entries (copy_item md5 (copy_folder_tree md5) dest) s =
    (Some tt, foldl (step_item md5 dest) s entries) ∧
  effect dest s (foldl (step_item md5 dest) s entries).
Proof. revert dest entries s. effect_rule copy_items_rule. Qed.

Lemma consolidate_effect (master : path) (sources : list (option node)) (s : State) :
  is_dir (disk s) master = true →
  consolidate md5 master sources s =
    (Some tt, foldl (step_root md5 master) s sources) ∧
  effect master s (foldl (step_root md5 master) s sources).
Proof. revert master sources s. effect_rule consolidate_rule. Qed.

(** [copy_folder_tree] in direct style. *)
Lemma copy_folder_tree_exec (nm : string) (src : node) (d : path) (s : State) :
  is_dir (disk s) d = true →
  copy_folder_tree md5 nm src d s =
    (Some tt,
     match src with
     | Dir true entries =>
         foldl (step_item md5 (find_available_name (disk s) (d / nm) true))
           (entered nm d s) entries
     | _ => incr_errors (entered nm d s)
     end).
Proof.
  intros Hd. rewrite copy_folder_tree_enter by done.
  unfold try_except.
  destruct src as [r data|[] entries|]; try done.
  destruct (copy_items_effect (find_available_name (disk s) (d / nm) true)
              entries (entered nm d s)) as [-> _]; [|done].
  simpl. destruct (exists_ (disk s) (d / nm)); apply is_dir_lookup, lookup_insert_eq.
Qed.

Lemma step_item_file (dest : path) (s : State) (inm : string) (r : bool) (data : list byte) :
  step_item md5 dest s (inm, File r data) =
    exec (copy_file md5 inm (File r data) (dest / inm)) s.
Proof.
  unfold step_item, exec, copy_item, bind, ret.
  by destruct (copy_file md5 inm (File r data) (dest / inm) s) as [[b|] s'].
Qed.

Lemma step_item_dir (dest : path) (s : State) (inm : string) (l : bool)
    (es : list (string * node)) :
  step_item md5 dest s (inm, Dir l es) = exec (copy_folder_tree md5 inm (Dir l es) dest) s.
Proof. done. Qed.

Lemma step_item_other (dest : path) (s : State) (inm : string) :
  step_item md5 dest s (inm, Other) = s.
Proof. done. Qed.

Lemma step_item_effect (dest : path) (s : State) (it : string * node) :
  is_dir (disk s) dest = true → effect dest s (step_item md5 dest s it).
Proof.
  intros Hd. destruct it as [inm [r data|l es|]].
  - rewrite step_item_file. by apply copy_file_effect.
  - rewrite step_item_dir. by apply copy_folder_tree_effect.
  - apply effect_refl.
Qed.

End CopyFolderTree.

(** ** Where the merge engine writes *)

Section Scope.

Variable md5 : list byte → string.

(** [copy_file] touches one path at most: the one [find_available_name]
    picks for the destination (the destination itself when it is
    free). *)
Lemma copy_file_scope (nm inm : string) (src : node) (d : path) (s : State) (p : path) :
  is_dir (disk s) d = true →
  p ≠ find_available_name (disk s) (d / inm) false →
  disk (exec (copy_file md5 nm src (d / inm)) s) !! p = disk s !! p.
Proof.
  intros Hd Hp. unfold exec.
  rewrite copy_file_run by (by rewrite parent_join).
  destruct (exists_ (disk s) (d / inm)) eqn:Hex; simpl.
  - destruct (are_files_identical md5 _ _); simpl; [done|].
    destruct (read_node src); simpl; [|done].
    by rewrite lookup_insert_ne.
  - rewrite find_available_name_absent in Hp by done.
    destruct (read_node src); simpl; [|done].
    by rewrite lookup_insert_ne.
Qed.

(** [copy_folder_tree] changes nothing outside the folder it makes. *)
Lemma copy_folder_tree_scope (nm : string) (src : node) (d : path) (s : State) (p : path) :
  is_dir (disk s) d = true →
  ¬ find_available_name (disk s) (d / nm) true `prefix_of` p →
  disk (exec (copy_folder_tree md5 nm src d) s) !! p = disk s !! p.
Proof.
  intros Hd Hp. unfold exec. rewrite copy_folder_tree_exec by done. simpl.
  set (dest := find_available_name (disk s) (d / nm) true) in *.
  assert (disk (entered nm d s) !! p = disk s !! p) as Hent.
  { unfold entered. simpl. fold dest. apply lookup_insert_ne. by intros <-. }
  assert (is_dir (disk (entered nm d s)) dest = true) as Hdir.
  { unfold entered. simpl. fold dest. apply is_dir_lookup, lookup_insert_eq. }
  destruct src as [r data|[] entries|]; simpl; try done.
  destruct (copy_items_effect md5 dest entries (entered nm d s) Hdir)
    as [_ (Hk & Hn & _)].
  rewrite <- Hent.
  destruct (disk (entered nm d s) !! p) as [e|] eqn:Hp0.
  - rewrite <- Hp0. apply Hk. by rewrite Hp0.
  - apply eq_None_not_Some. intros Hsome.
    apply Hp. by apply below_spec, Hn.
Qed.

End Scope.

(** ** What a run counts *)

Section Counting.

Variable md5 : list byte → string.

Lemma are_files_identical_unread_l (f2 : option (list byte)) :
  are_files_identical md5 None f2 = false.
Proof. done. Qed.

Lemma are_files_identical_unread_r (f1 : option (list byte)) :
  are_files_identical md5 f1 None = false.
Proof. unfold are_files_identical. simpl. by rewrite andb_false_r. Qed.

Lemma copy_file_counts (nm inm : string) (r : bool) (data : list byte) (d : path) (s : State) :
  is_dir (disk s) d = true →
  let s' := exec (copy_file md5 nm (File r data) (d / inm)) s in
  errors (stats s') = (errors (stats s) + (if r then 0 else 1))%nat ∧
  folders_copied (stats s') = folders_copied (stats s).
Proof.
  intros Hd. unfold exec. rewrite copy_file_run by (by rewrite parent_join).
  destruct r; simpl.
  - destruct (exists_ (disk s) (d / inm)); simpl; [|split; [lia|done]].
    destruct (are_files_identical md5 _ _); simpl; split; (lia || done).
  - destruct (exists_ (disk s) (d / inm)); simpl; split; (lia || done).
Qed.

Lemma entered_counts (nm : string) (d : path) (s : State) :
  errors (stats (entered nm d s)) = errors (stats s) ∧
  folders_copied (stats (entered nm d s)) = S (folders_copied (stats s)).
Proof. unfold entered. by destruct (exists_ (disk s) (d / nm)). Qed.

(** Every unreadable entry reached counts one error, every folder
    reached counts once in [folders_copied], whatever the destination
    holds. *)
Lemma step_item_counts (src : node) :
  ∀ (inm : string) (dest : path) (s : State),
    is_dir (disk s) dest = true →
    errors (stats (step_item md5 dest s (inm, src))) =
      (errors (stats s) + failures src)%nat ∧
    folders_copied (stats (step_item md5 dest s (inm, src))) =
      (folders_copied (stats s) + count_dirs src)%nat.
Proof.
  induction src as [r data|l entries IH|] using node_ind; intros inm dest s Hd.
  - rewrite step_item_file. simpl.
    destruct (copy_file_counts inm inm r data dest s Hd) as [-> ->]. lia.
  - rewrite step_item_dir. unfold exec. rewrite copy_folder_tree_exec by done.
    destruct (entered_counts inm dest s) as [He Hf].
    set (dest' := find_available_name (disk s) (dest / inm) true).
    assert (is_dir (disk (entered inm dest s)) dest' = true) as Hdir.
    { unfold entered. simpl. apply is_dir_lookup, lookup_insert_eq. }
    revert He Hf Hdir. generalize (entered inm dest s). intros s2 He Hf Hdir.
    destruct l; simpl; [|lia].
    rewrite <- He, Nat.add_succ_r, <- Nat.add_succ_l, <- Hf. clear He Hf.
    revert s2 Hdir.
    induction IH as [|[jnm item] es Hitem _ IHes]; intros s' Hd'; simpl.
    + lia.
    + destruct (Hitem jnm dest' s' Hd') as [E1 E2]. simpl in *.
      destruct (IHes (step_item md5 dest' s' (jnm, item))) as [E3 E4].
      { eapply keeps_is_dir; [|done]. by apply step_item_effect. }
      rewrite E3, E4, E1, E2. lia.
  - rewrite step_item_other. simpl. lia.
Qed.

Lemma copy_items_counts (dest : path) (es : list (string * node)) (s : State) :
  is_dir (disk s) dest = true →
  errors (stats (foldl (step_item md5 dest) s es)) =
    (errors (stats s) + sum_entries failures es)%nat ∧
  folders_copied (stats (foldl (step_item md5 dest) s es)) =
    (folders_copied (stats s) + sum_entries count_dirs es)%nat.
Proof.
  revert s. induction es as [|[jnm item] es IH]; intros s Hd; simpl.
  - lia.
  - destruct (step_item_counts item jnm dest s Hd) as [E1 E2].
    destruct (IH (step_item md5 dest s (jnm, item))) as [E3 E4].
    { eapply keeps_is_dir; [|done]. by apply step_item_effect. }
    rewrite E3, E4, E1, E2. lia.
Qed.

End Counting.

(** ** Copying into a free place *)

Lemma join_app (d : path) (x : string) (q : path) :
  (d / x ++ q)%list = (d ++ x :: q)%list.
Proof. unfold Path.join. by rewrite <- app_assoc. Qed.

Lemma join_prefix_ne (d : path) (x y : string) (q : path) :
  x ≠ y → ¬ (d / x)%list `prefix_of` (d / y ++ q)%list.
Proof.
  intros Hxy [k Hk]. rewrite !join_app in Hk.
  apply app_inv_head in Hk. congruence.
Qed.

Lemma join_app_ne (d : path) (x y : string) (q : path) : (d / x)%list ≠ (d / x ++ y :: q)%list.
Proof.
  intros H. apply (f_equal length) in H. rewrite length_app in H. simpl in H. lia.
Qed.

Section Replicate.

Variable md5 : list byte → string.

(** One turn of the loop changes nothing outside the place of its
    entry, when that place is free. *)
Lemma step_item_scope (dest : path) (s : State) (inm : string) (item : node) (p : path) :
  is_dir (disk s) dest = true →
  disk s !! (dest / inm)%list = None →
  ¬ (dest / inm)%list `prefix_of` p →
  disk (step_item md5 dest s (inm, item)) !! p = disk s !! p.
Proof.
  intros Hd Hfree Hp.
  assert (∀ b, find_available_name (disk s) (dest / inm) b = (dest / inm)%list) as Hn.
  { intros b. by apply find_available_name_absent, exists_false. }
  destruct item as [r data|l es|].
  - rewrite step_item_file. apply copy_file_scope; [done|].
    rewrite Hn. by intros ->.
  - rewrite step_item_dir. apply copy_folder_tree_scope; [done|]. by rewrite Hn.
  - by rewrite step_item_other.
Qed.

Lemma assoc_with_absent {A B} (f : A → option B) (x : string) (es : list (string * A)) :
  x ∉ es.*1 → assoc_with f x es = None.
Proof.
  induction es as [|[k v] es IH]; simpl; [done|].
  intros [Hk Hj]%not_elem_of_cons.
  destruct (decide (k = x)); [congruence|]. by apply IH.
Qed.

Lemma copy_items_replicate_with (dest : path) (es : list (string * node)) :
  Forall (λ it, replicates md5 it.2) es →
  NoDup es.*1 →
  ∀ s, is_dir (disk s) dest = true →
    (∀ x, x ∈ es.*1 → ∀ q, disk s !! (dest / x ++ q)%list = None) →
    ∀ x q,
      match assoc_with Some x es with
      | Some item =>
          clean item = true →
          disk (foldl (step_item md5 dest) s es) !! (dest / x ++ q)%list = image item q
      | None =>
          disk (foldl (step_item md5 dest) s es) !! (dest / x ++ q)%list =
            disk s !! (dest / x ++ q)%list
      end.
Proof.
  intros Hall. induction Hall as [|[jnm item] es Hitem _ IH];
    intros Hnd s Hd Hfree x q; simpl in *; [done|].
  apply NoDup_cons in Hnd as [Hj Hnd].
  assert (disk s !! (dest / jnm)%list = None) as Hfree0.
  { specialize (Hfree jnm (list_elem_of_here _ _) []). by rewrite app_nil_r in Hfree. }
  set (s1 := step_item md5 dest s (jnm, item)).
  assert (is_dir (disk s1) dest = true) as Hd1.
  { eapply keeps_is_dir; [|done]. by apply step_item_effect. }
  assert (∀ y q', y ≠ jnm → disk s1 !! (dest / y ++ q')%list = disk s !! (dest / y ++ q')%list)
    as Hother.
  { intros y q' Hy. apply step_item_scope; [done|done|]. by apply join_prefix_ne. }
  assert (∀ y, y ∈ es.*1 → ∀ q', disk s1 !! (dest / y ++ q')%list = None) as Hfree1.
  { intros y Hy q'. rewrite Hother.
    - apply Hfree. by apply list_elem_of_further.
    - intros ->. done. }
  specialize (IH Hnd s1 Hd1 Hfree1 x q).
  destruct (decide (jnm = x)) as [->|Hne].
  - rewrite (assoc_with_absent Some x es Hj) in IH. intros Hc. rewrite IH.
    apply Hitem; [done|done|]. apply Hfree, list_elem_of_here.
  - destruct (assoc_with Some x es); [done|]. rewrite IH. by apply Hother.
Qed.

Lemma assoc_with_Some {A B} (f : A → option B) (x : string) (es : list (string * A)) :
  assoc_with f x es = assoc_with Some x es ≫= f.
Proof.
  induction es as [|[k v] es IH]; simpl; [done|].
  by destruct (decide (k = x)).
Qed.

Lemma assoc_with_elem {A} (x : string) (es : list (string * A)) (item : A) :
  assoc_with Some x es = Some item → (x, item) ∈ es.
Proof.
  induction es as [|[k v] es IH]; simpl; [done|].
  destruct (decide (k = x)) as [->|].
  - intros [= ->]. apply list_elem_of_here.
  - intros H. by apply list_elem_of_further, IH.
Qed.

Lemma clean_entry (es : list (string * node)) (x : string) (item : node) :
  forallb (λ '(_, item), clean item) es = true → (x, item) ∈ es → clean item = true.
Proof.
  intros Hall Hin. rewrite forallb_forall in Hall.
  by apply (Hall (x, item)), list_elem_of_In.
Qed.

(** A clean entry copied to a free place is replicated there. *)
Lemma step_item_replicates (item : node) : replicates md5 item.
Proof.
  induction item as [r data|l es IH|] using node_ind;
    intros inm dest s Hd Hclean Hfree q.
  - simpl in Hclean. subst r. rewrite step_item_file. unfold exec.
    rewrite copy_file_run by (by rewrite parent_join).
    pose proof (Hfree []) as H0. rewrite app_nil_r in H0.
    rewrite (proj2 (exists_false _ _) H0). simpl.
    destruct q as [|x q]; simpl.
    + rewrite app_nil_r. apply lookup_insert_eq.
    + rewrite lookup_insert_ne by apply join_app_ne. apply Hfree.
  - simpl in Hclean.
    apply andb_true_iff in Hclean as [Hclean Hall].
    apply andb_true_iff in Hclean as [-> Hnd%bool_decide_eq_true].
    rewrite step_item_dir. unfold exec. rewrite copy_folder_tree_exec by done.
    pose proof (Hfree []) as H0. rewrite app_nil_r in H0.
    rewrite find_available_name_absent by (by apply exists_false).
    simpl.
    assert (disk (entered inm dest s) = <[(dest / inm)%list := EDir]> (disk s)) as Hent.
    { unfold entered. simpl.
      by rewrite find_available_name_absent by (by apply exists_false). }
    assert (is_dir (disk (entered inm dest s)) (dest / inm) = true) as Hdir.
    { rewrite Hent. apply is_dir_lookup, lookup_insert_eq. }
    destruct q as [|x q]; simpl.
    + rewrite app_nil_r.
      destruct (copy_items_effect md5 (dest / inm) es (entered inm dest s) Hdir)
        as [_ (Hk & _ & _)].
      rewrite Hk; rewrite Hent, lookup_insert_eq; done.
    + replace (dest / inm ++ x :: q)%list with (dest / inm / x ++ q)%list
        by (unfold Path.join; by rewrite <- !app_assoc).
      pose proof (copy_items_replicate_with (dest / inm) es IH Hnd _ Hdir) as Hrep.
      rewrite (assoc_with_Some (λ item, image item q)).
      lapply Hrep; [clear Hrep; intros Hrep; specialize (Hrep x q)|].
      * destruct (assoc_with Some x es) as [item|] eqn:Hx; simpl.
        -- apply Hrep. eapply (clean_entry es); [done|]. by apply assoc_with_elem.
        -- rewrite Hrep, Hent, lookup_insert_ne.
           ++ replace (dest / inm / x ++ q)%list with (dest / inm ++ x :: q)%list
                by (unfold Path.join; by rewrite <- !app_assoc).
              apply Hfree.
           ++ replace (dest / inm / x ++ q)%list with (dest / inm ++ x :: q)%list
                by (unfold Path.join; by rewrite <- !app_assoc).
              apply join_app_ne.
      * intros y _ q'. rewrite Hent, lookup_insert_ne.
        -- replace (dest / inm / y ++ q')%list with (dest / inm ++ y :: q')%list
             by (unfold Path.join; by rewrite <- !app_assoc).
           apply Hfree.
        -- replace (dest / inm / y ++ q')%list with (dest / inm ++ y :: q')%list
             by (unfold Path.join; by rewrite <- !app_assoc).
           apply join_app_ne.
  - rewrite step_item_other. simpl. apply Hfree.
Qed.

(** The loop over a folder with distinct names replicates each clean
    entry whose place was free, whatever the other entries are, and
    leaves the rest of the folder as it was. *)
Lemma copy_items_replicate (dest : path) (es : list (string * node)) (s : State) :
  NoDup es.*1 →
  is_dir (disk s) dest = true →
  (∀ x, x ∈ es.*1 → ∀ q, disk s !! (dest / x ++ q)%list = None) →
  ∀ x q,
    match assoc_with Some x es with
    | Some item =>
        clean item = true →
        disk (foldl (step_item md5 dest) s es) !! (dest / x ++ q)%list = image item q
    | None =>
        disk (foldl (step_item md5 dest) s es) !! (dest / x ++ q)%list =
          disk s !! (dest / x ++ q)%list
    end.
Proof.
  intros Hnd. apply copy_items_replicate_with; [|done].
  apply Forall_forall. intros it _. apply step_item_replicates.
Qed.

End Replicate.

(** ** The constructor *)

Lemma mkdir_rev_spec (rp : list string) :
  ∀ fs fs', mkdir_rev rp fs = Some fs' →
    (∀ p, is_Some (fs !! p) → fs' !! p = fs !! p) ∧ fs' !! rev rp = Some EDir.
Proof.
  induction rp as [|x rp IH]; intros fs fs'; simpl.
  - destruct (fs !! []) as [[]|] eqn:E; intros [= <-]; [done|].
    split; [|apply lookup_insert_eq].
    intros p [e Hp]. rewrite lookup_insert_ne; [done|]. congruence.
  - destruct (fs !! (rev rp ++ [x])%list) as [[]|] eqn:E; [done|by intros [= <-]|].
    destruct (mkdir_rev rp fs) as [fs1|] eqn:E1; [|done]. intros [= <-].
    destruct (IH fs fs1 E1) as [Hk _].
    split; [|apply lookup_insert_eq].
    intros p [e Hp]. rewrite lookup_insert_ne; [apply Hk; by eauto|]. congruence.
Qed.

Lemma FolderConsolidator_spec (master : path) (fs : filesystem) (s : State) :
  FolderConsolidator master fs = Some s →
  stats s = zero_stats ∧ is_dir (disk s) master = true ∧
  ∀ p, is_Some (fs !! p) → disk s !! p = fs !! p.
Proof.
  unfold FolderConsolidator, mkdir_p. simpl.
  destruct (mkdir_rev (rev master) fs) as [fs'|] eqn:E; [|done].
  intros [= <-]. simpl. destruct (mkdir_rev_spec _ _ _ E) as [Hk Hd].
  rewrite rev_involutive in Hd. split; [done|]. split; [by apply is_dir_lookup|done].
Qed.

(** ** Nothing at or below a path *)

Lemma vacant_spec (fs : filesystem) (p : path) :
  vacant fs p = true → ∀ q, fs !! (p ++ q)%list = None.
Proof.
  unfold vacant. rewrite forallb_forall. intros H q.
  apply eq_None_not_Some. intros [e He].
  assert (In (p ++ q)%list (map_to_list fs).*1) as Hin.
  { apply list_elem_of_In, list_elem_of_fmap. exists (p ++ q, e)%list.
    split; [done|]. by apply elem_of_map_to_list. }
  apply H in Hin. apply negb_true_iff, bool_decide_eq_false in Hin.
  apply Hin. by apply prefix_app_r.
Qed.

(** ** [folder_consolidator.py] against [consolidate_auto.py] *)

Lemma for_each_agree {A} (Inv : State → Prop) (l : list A) (body1 body2 : A → M unit) :
  (∀ x s, x ∈ l → Inv s → body1 x s = body2 x s) →
  (∀ x s, x ∈ l → Inv s → Inv (exec (body2 x) s)) →
  ∀ s, Inv s → for_each l body1 s = for_each l body2 s.
Proof.
  induction l as [|x l IH]; intros Heq Hinv s Hs; [done|].
  rewrite !for_each_cons. rewrite Heq by (done || apply list_elem_of_here).
  pose proof (Hinv x s (list_elem_of_here _ _) Hs) as Hs'. unfold exec in Hs'.
  destruct (body2 x s) as [[[]|] s']; [|done]. simpl in Hs'.
  apply IH; [| |done].
  - intros y t Hy. apply Heq. by apply list_elem_of_further.
  - intros y t Hy. apply Hinv. by apply list_elem_of_further.
Qed.

Section Agreement.

Variable md5 : list byte → string.

(** On a source that exists, the two scripts' [copy_folder_tree] do
    the same to the state. *)
Lemma copy_existing_tree_agrees (src : node) :
  ∀ (nm : string) (d : path) (s : State),
    is_dir (disk s) d = true →
    Interactive.copy_existing_tree md5 nm src d s =
      (Some (listed src), exec (copy_folder_tree md5 nm src d) s).
Proof.
  induction src as [r data|l entries IH|] using node_ind; intros nm d s Hd;
    unfold exec; rewrite copy_folder_tree_exec by done; simpl;
    rewrite enter_folder_run by done; try done.
  destruct l; [|done].
  set (dest := find_available_name (disk s) (d / nm) true).
  assert (is_dir (disk (entered nm d s)) dest = true) as Hdir.
  { unfold entered. simpl. apply is_dir_lookup, lookup_insert_eq. }
  unfold try_except, bind.
  rewrite (for_each_agree (λ s', is_dir (disk s') dest = true) entries _
             (copy_item md5 (copy_folder_tree md5) dest)); [| | |done].
  - destruct (copy_items_effect md5 dest entries (entered nm d s) Hdir) as [-> _]. done.
  - intros [inm item] s' Hin Hd'. destruct item as [r data|l es|]; try done.
    rewrite Forall_forall in IH. specialize (IH _ Hin inm dest s' Hd').
    change ((inm, Dir l es).2) with (Dir l es) in IH.
    unfold copy_item. cbv beta iota.
    unfold bind. rewrite IH. unfold ret.
    destruct (copy_folder_tree_effect md5 inm (Dir l es) dest s' Hd') as [Hr _].
    unfold result, exec in *.
    by destruct (copy_folder_tree md5 inm (Dir l es) dest s') as [[[]|] s''].
  - intros it s' _ Hd'. eapply keeps_is_dir; [|done].
    by apply (step_item_effect md5 dest s' it).
Qed.

Lemma interactive_consolidate_run (master : path)
    (sources : list (string * option node)) (s : State) :
  is_dir (disk s) master = true →
  Interactive.consolidate md5 master sources s =
    (Some tt, foldl (step_source md5 master) s sources) ∧
  effect master s (foldl (step_source md5 master) s sources).
Proof.
  unfold Interactive.consolidate. revert s.
  induction sources as [|[nm source] sources IH]; intros s Hd.
  - split; [done|apply effect_refl].
  - rewrite for_each_cons. unfold Interactive.copy_folder_tree, bind. simpl.
    assert (effect master s (step_source md5 master s (nm, source))) as He.
    { destruct source as [src|]; simpl.
      - by apply copy_folder_tree_effect.
      - apply effect_stats. unfold stats_le. simpl. lia. }
    assert (is_dir (disk (step_source md5 master s (nm, source))) master = true) as Hd'.
    { eapply keeps_is_dir; [apply He|done]. }
    destruct (IH _ Hd') as [Hrun Heff].
    split; [|by eapply effect_trans].
    destruct source as [src|]; simpl.
    + rewrite copy_existing_tree_agrees by done. done.
    + done.
Qed.

End Agreement.

(** * Sample inputs *)

Lemma sample_md5_nonempty (data : list byte) : sample_md5 data ≠ EmptyString.
Proof. done. Qed.

(** * The claims on the merge engine *)

Section Claims.

Variable md5 : list byte → string.

(** [copy_file] first makes sure of the destination's folder; the rest
    runs in the state that leaves. *)
Lemma mkdir_p_spec (p : path) (s s1 : State) :
  mkdir_p p s = (Some tt, s1) →
  is_dir (disk s1) p = true ∧ stats s1 = stats s ∧ keeps s s1.
Proof.
  unfold mkdir_p. destruct (mkdir_rev (rev p) (disk s)) as [fs'|] eqn:E; [|done].
  intros [= <-]. destruct (mkdir_rev_spec _ _ _ E) as [Hk Hd].
  rewrite rev_involutive in Hd. split; [by apply is_dir_lookup|]. by split.
Qed.

Lemma copy_file_after_mkdir (nm : string) (src : node) (D : path) (s s1 : State) :
  mkdir_p (Path.parent D) s = (Some tt, s1) →
  copy_file md5 nm src D s = copy_file md5 nm src D s1.
Proof.
  intros H. destruct (mkdir_p_spec _ _ _ H) as (Hd & _).
  unfold copy_file, bind. by rewrite H, (mkdir_p_dir _ _ Hd).
Qed.

(** C1. [copy_file] on a source file [F] that opens, with destination
    [D]. Let [s1] be the state once [D]'s folder is made sure of (it is
    the state before when the folder exists). When [D] is free, [F] is
    copied to [D] and only [files_copied] grows; when [D] exists with an
    equal digest, nothing on disk changes and only [files_skipped] grows;
    when [D] exists otherwise, [F] is copied to the free sibling path
    that [find_available_name] gives for [D], [D] stays as it was, and
    only [files_renamed] grows. Each time the call returns [True]. *)
Theorem copy_file_policy (nm : string) (data : list byte) (D : path) (s s1 : State) :
  mkdir_p (Path.parent D) s = (Some tt, s1) →
  let run := copy_file md5 nm (File true data) D s in
  let N := find_available_name (disk s1) D false in
  (is_dir (disk s) (Path.parent D) = true → s1 = s) ∧
  (disk s1 !! D = None →
     run = (Some true, incr_files_copied (set_disk (<[D := EFile true data]> (disk s1)) s1))) ∧
  (is_Some (disk s1 !! D) →
   are_files_identical md5 (Some data) (read_file (disk s1) D) = true →
     run = (Some true, incr_files_skipped s1)) ∧
  (is_Some (disk s1 !! D) →
   are_files_identical md5 (Some data) (read_file (disk s1) D) = false →
     run = (Some true, incr_files_renamed (set_disk (<[N := EFile true data]> (disk s1)) s1)) ∧
     disk s1 !! N = None ∧ N ≠ D ∧ Path.parent N = Path.parent D).
Proof.
  intros Hmk run N. destruct (mkdir_p_spec _ _ _ Hmk) as (Hpar & _).
  unfold run. rewrite (copy_file_after_mkdir _ _ _ _ _ Hmk).
  rewrite copy_file_run by done. simpl.
  split; [|split; [|split]].
  - intros Hd. rewrite mkdir_p_dir in Hmk by done. congruence.
  - intros HD. by rewrite (proj2 (exists_false _ _) HD).
  - intros HD Hid. by rewrite (proj2 (exists_true _ _) HD), Hid.
  - intros HD Hid. rewrite (proj2 (exists_true _ _) HD), Hid. simpl.
    pose proof (find_available_name_free (disk s1) D false) as Hfree.
    split; [done|]. split; [done|]. split; [|apply find_available_name_parent].
    intros HN. fold N in Hfree. rewrite HN in Hfree. rewrite Hfree in HD.
    by destruct HD.
Qed.

(** C6. [are_files_identical] holds exactly when both digests were
    computed and are equal (a digest is never the empty string), in
    both scripts. When [D] exists and either digest is [None],
    [copy_file] does not skip: a source that reads is copied to the
    free sibling name and counted in [files_renamed]; a source that
    does not read is counted in [errors]. *)
Theorem digest_comparison (f1 f2 : option (list byte))
    (nm : string) (src : node) (D : path) (s : State) :
  (∀ data, md5 data ≠ EmptyString) →
  (are_files_identical md5 f1 f2 = true ↔
     ∃ h, get_file_hash md5 f1 = Some h ∧ get_file_hash md5 f2 = Some h) ∧
  are_files_identical' md5 f1 f2 = are_files_identical md5 f1 f2 ∧
  (is_dir (disk s) (Path.parent D) = true →
   is_Some (disk s !! D) →
   get_file_hash md5 (read_node src) = None ∨
     get_file_hash md5 (read_file (disk s) D) = None →
   let s' := exec (copy_file md5 nm src D) s in
   files_skipped (stats s') = files_skipped (stats s) ∧
   match read_node src with
   | Some data =>
       s' = incr_files_renamed
              (set_disk (<[find_available_name (disk s) D false := EFile true data]> (disk s)) s)
   | None => s' = incr_errors s
   end).
Proof.
  intros Hne. split; [|split].
  - unfold are_files_identical.
    rewrite !andb_true_iff, bool_decide_eq_true. split.
    + intros [[T1 T2] E]. destruct f1 as [d1|], f2 as [d2|]; simpl in *; try done.
      by exists (md5 d1).
    + intros (h & H1 & H2). destruct f1 as [d1|], f2 as [d2|]; simpl in *; try done.
      injection H1 as <-. injection H2 as H2.
      assert (∀ d, negb (md5 d =? EmptyString)%string = true) as Ht.
      { intros d. by apply negb_true_iff, String.eqb_neq. }
      rewrite !Ht. split; [done|]. by rewrite H2.
  - apply are_files_identical_agree.
  - intros Hpar HD Hfail s'. unfold s', exec. rewrite copy_file_run by done.
    rewrite (proj2 (exists_true _ _) HD). simpl.
    assert (are_files_identical md5 (read_node src) (read_file (disk s) D) = false) as ->.
    { unfold are_files_identical. destruct Hfail as [-> | ->]; simpl; [done|].
      by rewrite andb_false_r. }
    by destruct (read_node src).
Qed.

(** C10. A run of the merge engine, in either script, keeps every
    entry the destination held before it: same path, same bytes. So
    does every single [copy_file] and [copy_folder_tree]. The run
    itself always comes to its end. *)
Theorem existing_entries_kept (master_folder : path) (fs : filesystem) (s : State)
    (sources : list (option node)) (named_sources : list (string * option node)) :
  FolderConsolidator master_folder fs = Some s →
  (result (consolidate md5 master_folder sources) s = Some tt ∧
   ∀ p e, fs !! p = Some e →
     disk (exec (consolidate md5 master_folder sources) s) !! p = Some e) ∧
  (result (Interactive.consolidate md5 master_folder named_sources) s = Some tt ∧
   ∀ p e, fs !! p = Some e →
     disk (exec (Interactive.consolidate md5 master_folder named_sources) s) !! p = Some e) ∧
  (∀ nm inm src d s0, is_dir (disk s0) d = true →
     keeps s0 (exec (copy_file md5 nm src (d / inm)) s0) ∧
     keeps s0 (exec (copy_folder_tree md5 nm src d) s0)).
Proof.
  intros Hnew. destruct (FolderConsolidator_spec _ _ _ Hnew) as (_ & Hd & Hk).
  split; [|split].
  - destruct (consolidate_effect md5 master_folder sources s Hd) as [Hrun (K & _)].
    unfold result, exec. rewrite Hrun. simpl. split; [done|].
    intros p e Hp. rewrite K; rewrite Hk; rewrite ?Hp; done.
  - destruct (interactive_consolidate_run md5 master_folder named_sources s Hd)
      as [Hrun (K & _)].
    unfold result, exec. rewrite Hrun. simpl. split; [done|].
    intros p e Hp. rewrite K; rewrite Hk; rewrite ?Hp; done.
  - intros nm inm src d s0 Hd0. split.
    + by apply copy_file_effect.
    + by apply copy_folder_tree_effect.
Qed.

End Claims.

(** ** Directory collisions and failures *)

Lemma assoc_with_NoDup {A} (x : string) (item : A) (es : list (string * A)) :
  NoDup es.*1 → (x, item) ∈ es → assoc_with Some x es = Some item.
Proof.
  induction es as [|[k v] es IH]; simpl; intros Hnd Hin.
  - by apply elem_of_nil in Hin.
  - apply NoDup_cons in Hnd as [Hk Hnd].
    apply elem_of_cons in Hin as [[= -> ->]|Hin].
    + by rewrite decide_True.
    + rewrite decide_False; [by apply IH|].
      intros ->. apply Hk. apply list_elem_of_fmap. by exists (x, item).
Qed.

Lemma sum_entries_app {A} (f : A → nat) (l1 l2 : list (string * A)) :
  sum_entries f (l1 ++ l2)%list = (sum_entries f l1 + sum_entries f l2)%nat.
Proof.
  induction l1 as [|[k v] l1 IH]; simpl; [done|]. rewrite IH. lia.
Qed.

Lemma clean_failures (n : node) : clean n = true → failures n = 0%nat.
Proof.
  induction n as [r data|l es IH|] using node_ind; simpl; [by intros ->| |done].
  intros [[-> _]%andb_true_iff Hall]%andb_true_iff.
  induction IH as [|[k v] es Hv _ IHes]; simpl in *; [done|].
  apply andb_true_iff in Hall as [Hc Hall].
  rewrite Hv by done. by rewrite IHes.
Qed.

Lemma clean_entries_failures (es : list (string * node)) :
  forallb (λ '(_, item), clean item) es = true → sum_entries failures es = 0%nat.
Proof.
  induction es as [|[k v] es IH]; simpl; [done|].
  intros [Hc Hall]%andb_true_iff. rewrite clean_failures by done. by rewrite IH.
Qed.

Section Claims2.

Variable md5 : list byte → string.

(** A clean folder copied by [copy_folder_tree] is replicated in the
    folder made for it, when nothing lay at or below that name. *)
Lemma copy_folder_tree_replicates (nm : string) (l : bool) (es : list (string * node))
    (d : path) (s : State) :
  is_dir (disk s) d = true →
  clean (Dir l es) = true →
  vacant (disk s) (find_available_name (disk s) (d / nm) true) = true →
  ∀ q, disk (exec (copy_folder_tree md5 nm (Dir l es) d) s)
         !! (find_available_name (disk s) (d / nm) true ++ q)%list = image (Dir l es) q.
Proof.
  intros Hd Hclean Hvac q. simpl in Hclean.
  apply andb_true_iff in Hclean as [Hclean Hall].
  apply andb_true_iff in Hclean as [-> Hnd%bool_decide_eq_true].
  pose proof (vacant_spec _ _ Hvac) as Hfree.
  unfold exec. rewrite copy_folder_tree_exec by done. simpl.
  set (N := find_available_name (disk s) (d / nm) true) in *.
  assert (disk (entered nm d s) = <[N := EDir]> (disk s)) as Hent.
  { unfold entered. simpl. by destruct (exists_ (disk s) (d / nm)). }
  assert (is_dir (disk (entered nm d s)) N = true) as Hdir.
  { rewrite Hent. apply is_dir_lookup, lookup_insert_eq. }
  destruct q as [|x q].
  - rewrite app_nil_r. simpl.
    destruct (copy_items_effect md5 N es (entered nm d s) Hdir) as [_ (Hk & _ & _)].
    rewrite Hk; rewrite Hent, lookup_insert_eq; done.
  - assert (∀ y q', disk (entered nm d s) !! (N / y ++ q')%list = None) as Hfree'.
    { intros y q'. rewrite Hent, join_app, lookup_insert_ne; [apply Hfree|].
      intros E. apply (f_equal length) in E. rewrite length_app in E. simpl in E. lia. }
    pose proof (copy_items_replicate md5 N es (entered nm d s) Hnd Hdir
                  (λ y _ q', Hfree' y q') x q) as Hrep.
    rewrite <- join_app. simpl.
    rewrite (assoc_with_Some (λ item, image item q)).
    destruct (assoc_with Some x es) as [item|] eqn:Hx; simpl.
    + apply Hrep. eapply (clean_entry es); [done|]. by apply assoc_with_elem.
    + rewrite Hrep. apply Hfree'.
Qed.

(** C4. When the destination name [d / nm] of a source folder is
    taken, [copy_folder_tree] makes a folder under a free sibling name
    [N] and puts the whole source folder there: [N] is new, lies beside
    [d / nm], and every path outside [N] keeps what it held, so nothing
    is added to or changed in the folder that was there. When the
    source folder is clean and nothing lay below [N], the folder [N]
    holds exactly the source folder's tree. *)
Theorem directory_collision_wholesale (nm : string) (l : bool)
    (es : list (string * node)) (d : path) (s : State) :
  is_dir (disk s) d = true →
  is_Some (disk s !! (d / nm)%list) →
  let N := find_available_name (disk s) (d / nm) true in
  let s' := exec (copy_folder_tree md5 nm (Dir l es) d) s in
  (disk s !! N = None ∧ N ≠ (d / nm)%list ∧ Path.parent N = d) ∧
  disk s' !! N = Some EDir ∧
  folders_renamed (stats (entered nm d s)) = S (folders_renamed (stats s)) ∧
  (∀ p, ¬ N `prefix_of` p → disk s' !! p = disk s !! p) ∧
  (∀ q, disk s' !! (d / nm ++ q)%list = disk s !! (d / nm ++ q)%list) ∧
  (clean (Dir l es) = true → vacant (disk s) N = true →
     ∀ q, disk s' !! (N ++ q)%list = image (Dir l es) q).
Proof.
  intros Hd Hex N s'.
  pose proof (find_available_name_free (disk s) (d / nm) true) as Hfree.
  pose proof (find_available_name_parent (disk s) (d / nm) true) as Hpar.
  rewrite parent_join in Hpar. fold N in Hfree, Hpar.
  assert (N ≠ (d / nm)%list) as Hne.
  { intros E. rewrite E in Hfree. rewrite Hfree in Hex. by destruct Hex. }
  assert (∀ p, ¬ N `prefix_of` p → disk s' !! p = disk s !! p) as Hout.
  { intros p Hp. by apply copy_folder_tree_scope. }
  split; [done|]. split; [|split; [|split; [done|split]]].
  - destruct (copy_folder_tree_effect md5 nm (Dir l es) d s Hd) as [_ (Hk & _ & _)].
    unfold s', exec. rewrite copy_folder_tree_exec by done. simpl.
    assert (disk (entered nm d s) !! N = Some EDir) as HN.
    { unfold entered. simpl. apply lookup_insert_eq. }
    assert (is_dir (disk (entered nm d s)) N = true) as Hdir by (by apply is_dir_lookup).
    destruct l; [|done].
    destruct (copy_items_effect md5 N es (entered nm d s) Hdir) as [_ (Hk' & _ & _)].
    rewrite Hk'; rewrite HN; done.
  - unfold entered. by rewrite (proj2 (exists_true _ _) Hex).
  - intros q. apply Hout.
    destruct (find_available_name_join (disk s) d nm true) as [n Hn].
    fold N in Hn. rewrite Hn in *. apply join_prefix_ne. by intros ->.
  - intros Hclean Hvac q. by apply copy_folder_tree_replicates.
Qed.

(** C7. In a source folder one of whose entries is unreadable (a file
    that does not open or a folder that does not list),
    [copy_folder_tree] still returns and has taken every entry in turn:
    those before the bad one, the bad one, which adds exactly one to
    [errors], and all those after it. The errors of the whole call are
    those of the entries, so exactly one when the other entries are
    clean. With distinct names and a free destination, every clean
    entry is replicated in full. *)
Theorem error_isolation (nm : string) (l1 : list (string * node)) (bad_nm : string)
    (bad : node) (l2 : list (string * node)) (d : path) (s : State) :
  is_dir (disk s) d = true →
  unreadable bad = true →
  let dest := find_available_name (disk s) (d / nm) true in
  let before := foldl (step_item md5 dest) (entered nm d s) l1 in
  let after_bad := step_item md5 dest before (bad_nm, bad) in
  let final := foldl (step_item md5 dest) after_bad l2 in
  copy_folder_tree md5 nm (Dir true (l1 ++ (bad_nm, bad) :: l2)%list) d s = (Some tt, final) ∧
  errors (stats after_bad) = S (errors (stats before)) ∧
  errors (stats final) =
    (errors (stats s) + sum_entries failures l1 + 1 + sum_entries failures l2)%nat ∧
  (forallb (λ '(_, item), clean item) (l1 ++ l2)%list = true →
     errors (stats final) = S (errors (stats s))) ∧
  (NoDup ((l1 ++ (bad_nm, bad) :: l2)%list).*1 → vacant (disk s) dest = true →
     ∀ x item q, (x, item) ∈ (l1 ++ l2)%list → clean item = true →
       disk final !! (dest / x ++ q)%list = image item q).
Proof.
  intros Hd Hbad dest before after_bad final.
  assert (failures bad = 1%nat) as Hfail by (by destruct bad as [[]|[]|]).
  assert (is_dir (disk (entered nm d s)) dest = true) as Hdir.
  { unfold entered. simpl. apply is_dir_lookup, lookup_insert_eq. }
  assert (copy_folder_tree md5 nm (Dir true (l1 ++ (bad_nm, bad) :: l2)%list) d s
          = (Some tt, final)) as Hrun.
  { rewrite copy_folder_tree_exec by done. by rewrite foldl_app. }
  assert (is_dir (disk before) dest = true) as Hdb.
  { eapply keeps_is_dir; [|done]. by apply (copy_items_effect md5 dest l1). }
  assert (errors (stats after_bad) = S (errors (stats before))) as Hone.
  { unfold after_bad.
    destruct (step_item_counts md5 bad bad_nm dest before Hdb) as [-> _]. lia. }
  assert (errors (stats final) =
    (errors (stats s) + sum_entries failures l1 + 1 + sum_entries failures l2)%nat) as Hall.
  { assert (is_dir (disk after_bad) dest = true) as Hda.
    { eapply keeps_is_dir; [|done]. by apply step_item_effect. }
    unfold final.
    destruct (copy_items_counts md5 dest l2 after_bad Hda) as [-> _].
    rewrite Hone. unfold before.
    destruct (copy_items_counts md5 dest l1 (entered nm d s) Hdir) as [-> _].
    destruct (entered_counts nm d s) as [-> _]. lia. }
  split; [done|]. split; [done|]. split; [done|]. split.
  - rewrite forallb_app. intros [H1 H2]%andb_true_iff.
    rewrite Hall, !clean_entries_failures by done. lia.
  - intros Hnd Hvac x item q Hin Hclean.
    pose proof (vacant_spec _ _ Hvac) as Hfree.
    assert (final = foldl (step_item md5 dest) (entered nm d s)
                      (l1 ++ (bad_nm, bad) :: l2)%list) as -> by (by rewrite foldl_app).
    assert (∀ y q', disk (entered nm d s) !! (dest / y ++ q')%list = None) as Hfree'.
    { intros y q'. unfold entered. simpl. fold dest.
      rewrite join_app, lookup_insert_ne; [apply Hfree|].
      intros E. apply (f_equal length) in E. rewrite length_app in E. simpl in E. lia. }
    pose proof (copy_items_replicate md5 dest _ (entered nm d s) Hnd Hdir
                  (λ y _ q', Hfree' y q') x q) as Hrep.
    rewrite (assoc_with_NoDup x item) in Hrep; [by apply Hrep|done|].
    apply elem_of_app in Hin as [Hin|Hin]; apply elem_of_app; [by left|].
    right. by apply list_elem_of_further.
Qed.

End Claims2.

(** ** Counters over a run, and a second run *)

Section Claims3.

Variable md5 : list byte → string.

Lemma step_root_effect (master_folder : path) (s : State) (source : option node) :
  is_dir (disk s) master_folder = true →
  effect master_folder s (step_root md5 master_folder s source).
Proof.
  intros Hd. destruct source as [[r data|l es|]|]; simpl; try apply effect_refl.
  destruct l; [|apply effect_refl]. by apply copy_items_effect.
Qed.

Lemma consolidate_counts (master_folder : path) (sources : list (option node)) (s : State) :
  is_dir (disk s) master_folder = true →
  folders_copied (stats (foldl (step_root md5 master_folder) s sources)) =
    (folders_copied (stats s) + sum_list_with root_dirs sources)%nat.
Proof.
  revert s. induction sources as [|source sources IH]; intros s Hd; [simpl; lia|].
  cbn [foldl sum_list_with]. rewrite IH.
  - destruct source as [[r data|l es|]|]; cbn [step_root root_dirs]; try lia.
    destruct l; [|lia].
    destruct (copy_items_counts md5 master_folder es s Hd) as [_ ->]. lia.
  - eapply keeps_is_dir; [|done]. by apply step_root_effect.
Qed.

(** C9, as the code has it. [folders_copied] grows by one for every
    source folder [copy_folder_tree] is called on, whether its
    destination name was free or taken; a taken name adds one to
    [folders_renamed] as well. Over a call, and over a whole run of
    [consolidate], [folders_copied] grows by the number of source
    folders reached. *)
Theorem folders_copied_counts_every_folder (nm : string) (l : bool)
    (es : list (string * node)) (d : path) (s : State) (sources : list (option node)) :
  is_dir (disk s) d = true →
  let taken := if exists_ (disk s) (d / nm) then 1%nat else 0%nat in
  stats (exec (copy_folder_tree md5 nm (Dir true []) d) s) =
    mkStats (S (folders_copied (stats s))) (folders_renamed (stats s) + taken)
      (files_copied (stats s)) (files_renamed (stats s)) (files_skipped (stats s))
      (errors (stats s)) ∧
  folders_copied (stats (exec (copy_folder_tree md5 nm (Dir l es) d) s)) =
    (folders_copied (stats s) + count_dirs (Dir l es))%nat ∧
  (folders_renamed (stats s) + taken ≤
     folders_renamed (stats (exec (copy_folder_tree md5 nm (Dir l es) d) s)))%nat ∧
  folders_copied (stats (exec (consolidate md5 d sources) s)) =
    (folders_copied (stats s) + sum_list_with root_dirs sources)%nat.
Proof.
  intros Hd taken. split; [|split; [|split]].
  - unfold exec. rewrite copy_folder_tree_exec by done. simpl.
    unfold entered, taken. destruct (exists_ (disk s) (d / nm)); simpl; f_equal; lia.
  - destruct (step_item_counts md5 (Dir l es) nm d s Hd) as [_ H].
    by rewrite step_item_dir in H.
  - unfold exec. rewrite copy_folder_tree_exec by done. simpl.
    assert (folders_renamed (stats (entered nm d s)) = (folders_renamed (stats s) + taken)%nat)
      as <-.
    { unfold entered, taken. destruct (exists_ (disk s) (d / nm)); simpl; lia. }
    destruct l; [|done].
    assert (is_dir (disk (entered nm d s)) (find_available_name (disk s) (d / nm) true) = true)
      as Hdir.
    { unfold entered. simpl. apply is_dir_lookup, lookup_insert_eq. }
    destruct (copy_items_effect md5 _ es (entered nm d s) Hdir) as [_ (_ & _ & Hle)].
    unfold stats_le in Hle. lia.
  - destruct (consolidate_effect md5 d sources s Hd) as [Hrun _].
    unfold exec. rewrite Hrun. simpl. by apply consolidate_counts.
Qed.

(** *** A second run over a folder of files *)

Lemma settled_exists (master_folder : path) (fs : filesystem) (it : string * node) :
  settled md5 master_folder fs it → is_Some (fs !! (master_folder / it.1)%list).
Proof.
  unfold settled, read_file. intros H.
  destruct (fs !! (master_folder / it.1)%list) as [e|] eqn:E; [by eauto|].
  by rewrite are_files_identical_unread_r in H.
Qed.

Lemma settled_keeps (master_folder : path) (s s' : State) (it : string * node) :
  keeps s s' → settled md5 master_folder (disk s) it → settled md5 master_folder (disk s') it.
Proof.
  intros Hk H. pose proof (settled_exists _ _ _ H) as Hex.
  unfold settled, read_file in *. by rewrite (Hk _ Hex).
Qed.

Lemma identical_same (data : list byte) :
  md5 data ≠ EmptyString → are_files_identical md5 (Some data) (Some data) = true.
Proof.
  intros Hne. unfold are_files_identical. simpl.
  rewrite (proj2 (String.eqb_neq _ _) Hne). simpl. by apply bool_decide_eq_true.
Qed.

Lemma step_settles (master_folder : path) (s : State) (inm : string) (r : bool)
    (data : list byte) :
  (∀ data, md5 data ≠ EmptyString) →
  is_dir (disk s) master_folder = true →
  let s1 := step_item md5 master_folder s (inm, File r data) in
  errors (stats s1) = errors (stats s) →
  files_renamed (stats s1) = files_renamed (stats s) →
  settled md5 master_folder (disk s1) (inm, File r data).
Proof.
  intros Hne Hd s1. unfold s1, settled. rewrite step_item_file. unfold exec.
  rewrite copy_file_run by (by rewrite parent_join).
  destruct (exists_ (disk s) (master_folder / inm)) eqn:Hex; simpl.
  - destruct (are_files_identical md5 _ _) eqn:Hid; simpl; [done|].
    destruct r; simpl; lia.
  - destruct r; simpl; [|lia]. intros _ _.
    unfold read_file. rewrite lookup_insert_eq. by apply identical_same.
Qed.

Lemma first_run_settles (master_folder : path) (es : list (string * node)) :
  (∀ data, md5 data ≠ EmptyString) →
  only_files es = true →
  ∀ s, is_dir (disk s) master_folder = true →
    let first := foldl (step_item md5 master_folder) s es in
    errors (stats first) = errors (stats s) →
    files_renamed (stats first) = files_renamed (stats s) →
    Forall (settled md5 master_folder (disk first)) es.
Proof.
  intros Hne. induction es as [|[inm item] es IH]; intros Hfiles s Hd; simpl; [done|].
  simpl in Hfiles. apply andb_true_iff in Hfiles as [Hitem Hfiles].
  destruct item as [r data| |]; try done.
  set (s1 := step_item md5 master_folder s (inm, File r data)).
  destruct (step_item_effect md5 master_folder s (inm, File r data) Hd) as (K1 & _ & L1).
  fold s1 in K1, L1.
  assert (is_dir (disk s1) master_folder = true) as Hd1 by (by eapply keeps_is_dir).
  destruct (copy_items_effect md5 master_folder es s1 Hd1) as [_ (K2 & _ & L2)].
  intros He Hr. unfold stats_le in *.
  apply Forall_cons. split.
  - eapply settled_keeps; [done|]. apply step_settles; [done|done|fold s1; lia..].
  - apply IH; [done|done|lia..].
Qed.

Lemma second_run_skips (master_folder : path) (es : list (string * node)) :
  only_files es = true →
  ∀ s, is_dir (disk s) master_folder = true →
    Forall (settled md5 master_folder (disk s)) es →
    foldl (step_item md5 master_folder) s es =
      mkState (disk s)
        (mkStats (folders_copied (stats s)) (folders_renamed (stats s))
           (files_copied (stats s)) (files_renamed (stats s))
           (files_skipped (stats s) + length es) (errors (stats s))).
Proof.
  induction es as [|[inm item] es IH]; intros Hfiles s Hd Hall; simpl.
  - destruct s as [fs [] ]. simpl. by rewrite Nat.add_0_r.
  - simpl in Hfiles. apply andb_true_iff in Hfiles as [Hitem Hfiles].
    destruct item as [r data| |]; try done.
    apply Forall_cons in Hall as [Hit Hall].
    rewrite step_item_file. unfold exec.
    rewrite copy_file_run by (by rewrite parent_join).
    pose proof (settled_exists _ _ _ Hit) as Hex. simpl in Hex.
    rewrite (proj2 (exists_true _ _) Hex). simpl.
    unfold settled in Hit. simpl in Hit. rewrite Hit. simpl.
    rewrite IH by done. simpl. do 2 f_equal. lia.
Qed.

(** C3, as the code has it. For a single source root that holds files
    only, after a first run that counted no error and renamed no file,
    a second run over the same root and destination copies nothing and
    renames nothing: the destination is left as it is and every file is
    counted in [files_skipped]. ([c] are the counters the second run
    starts from.) *)
Theorem second_run_skips_files (master_folder : path) (es : list (string * node))
    (s0 : State) (c : Stats) :
  (∀ data, md5 data ≠ EmptyString) →
  is_dir (disk s0) master_folder = true →
  only_files es = true →
  let first := exec (consolidate md5 master_folder [Some (Dir true es)]) s0 in
  errors (stats first) = errors (stats s0) →
  files_renamed (stats first) = files_renamed (stats s0) →
  let second :=
    exec (consolidate md5 master_folder [Some (Dir true es)]) (mkState (disk first) c) in
  disk second = disk first ∧
  stats second =
    mkStats (folders_copied c) (folders_renamed c) (files_copied c) (files_renamed c)
      (files_skipped c + length es) (errors c).
Proof.
  intros Hne Hd Hfiles first.
  destruct (consolidate_effect md5 master_folder [Some (Dir true es)] s0 Hd)
    as [Hrun (K & _ & _)].
  assert (first = foldl (step_item md5 master_folder) s0 es) as Hfirst.
  { unfold first, exec. by rewrite Hrun. }
  intros He Hr second.
  assert (is_dir (disk first) master_folder = true) as Hd1.
  { rewrite Hfirst. eapply keeps_is_dir; [apply K|done]. }
  destruct (consolidate_effect md5 master_folder [Some (Dir true es)]
              (mkState (disk first) c) Hd1) as [Hrun2 _].
  unfold second, exec. rewrite Hrun2. simpl.
  rewrite second_run_skips; [done|done|done|]. simpl.
  rewrite Hfirst in *. by apply first_run_settles.
Qed.

(** C8, evaluated. A source root that does not exist is skipped and the
    run goes on, but [errors] is left as it is by [consolidate] of
    [consolidate_auto.py] and by the cleaner; only
    [folder_consolidator.py] counts it. *)
Theorem missing_root_not_counted (master_folder : path) (sources : list (option node))
    (nm : string) (named_sources : list (string * option node)) (s : State)
    (root : path) (roots : list path) (cs : Cleaner.State) :
  Cleaner.disk cs !! root = None →
  consolidate md5 master_folder (None :: sources) s =
    consolidate md5 master_folder sources s ∧
  Cleaner.remove_empty_folders root cs = cs ∧
  Cleaner.clean_sources (root :: roots) cs = Cleaner.clean_sources roots cs ∧
  Interactive.consolidate md5 master_folder ((nm, None) :: named_sources) s =
    Interactive.consolidate md5 master_folder named_sources (incr_errors s).
Proof.
  intros Hroot. apply exists_false in Hroot.
  split; [done|]. split; [|split; [|done]].
  - unfold Cleaner.remove_empty_folders. by rewrite Hroot.
  - unfold Cleaner.clean_sources. simpl. by rewrite Hroot.
Qed.

End Claims3.

(** ** Sibling names of folders *)

(** For an existing target the name returned is the first free one among
    [stem_2], [stem_3], ... followed by the suffix kept. *)
Lemma find_available_name_first (fs : filesystem) (target : path) (is_folder : bool) :
  is_Some (fs !! target) →
  let suffix := if negb is_folder then Path.suffix target else EmptyString in
  let cand := candidate (Path.parent target) (Path.stem target) suffix in
  ∃ k, (2 ≤ k)%nat ∧ find_available_name fs target is_folder = cand k ∧
       fs !! cand k = None ∧ ∀ j, (2 ≤ j < k)%nat → is_Some (fs !! cand j).
Proof.
  intros Hex suffix cand.
  pose proof (find_available_name_free fs target is_folder) as Hfree.
  unfold find_available_name in *. rewrite (proj2 (exists_true _ _) Hex) in *. simpl in *.
  destruct (find_loop_first fs (Path.parent target) (Path.stem target) suffix (size fs) 2)
    as (k & Hk & Heq & Hall).
  exists k. fold suffix in Hfree. rewrite Heq in Hfree.
  split; [done|]. split; [done|]. split; [done|].
  intros j Hj. by apply exists_true, Hall.
Qed.

(** C2, evaluated. A folder whose name has a dot loses what follows the
    last dot: the sibling of the folder [v1.0] is [v1_2], where appending
    to the whole name gives [v1.0_2]. Files keep their extension. *)
Lemma folder_suffix_dropped :
  is_dir (disk used_master) (master / "v1.0") = true ∧
  find_available_name (disk used_master) (master / "v1.0") true = (master / "v1_2")%list ∧
  find_available_name (disk used_master) (master / "a.txt") false = (master / "a_2.txt")%list ∧
  find_available_name (disk used_master) (master / "Photos") true = (master / "Photos_2")%list.
Proof. vm_compute. done. Qed.

(** * The empty-folder cleaner *)

Module CleanerProofs.
Import Cleaner.

Implicit Types (fs : filesystem) (p q d : path).

Lemma elem_of_keys fs p : p ∈ (map_to_list fs).*1 ↔ is_Some (fs !! p).
Proof.
  rewrite list_elem_of_fmap. split.
  - intros [[k e] [-> Hin]]. apply elem_of_map_to_list in Hin. by eauto.
  - intros [e He]. exists (p, e). split; [done|]. by apply elem_of_map_to_list.
Qed.

Lemma elem_of_rglob fs d p :
  p ∈ rglob fs d ↔ Path.below d p = true ∧ is_Some (fs !! p).
Proof. unfold rglob. by rewrite list_elem_of_filter, elem_of_keys. Qed.

Lemma is_file_lookup fs p : is_file fs p = true → is_Some (fs !! p).
Proof. unfold is_file. destruct (fs !! p); [by eauto|done]. Qed.

(** [is_folder_empty]: no path below is a file. *)
Lemma is_folder_empty_spec fs d :
  is_folder_empty fs d = true ↔ ∀ p, Path.below d p = true → is_file fs p = false.
Proof.
  unfold is_folder_empty. rewrite forallb_forall. split.
  - intros H p Hp. destruct (is_file fs p) eqn:E; [|done].
    assert (In p (rglob fs d)) as Hin.
    { apply list_elem_of_In, elem_of_rglob. split; [done|]. by apply is_file_lookup. }
    apply H in Hin. by rewrite E in Hin.
  - intros H p Hin. apply list_elem_of_In, elem_of_rglob in Hin as [Hp _].
    by rewrite H.
Qed.

(** [has_entries]: some entry has the folder as its parent. *)
Lemma has_entries_spec fs d :
  has_entries fs d = true ↔ ∃ q, is_Some (fs !! q) ∧ q ≠ [] ∧ Path.parent q = d.
Proof.
  unfold has_entries. rewrite existsb_exists. split.
  - intros (q & Hin & Hq). apply bool_decide_eq_true in Hq.
    exists q. split; [|done]. by apply elem_of_keys, list_elem_of_In.
  - intros (q & Hq & Hne & Hpar). exists q. split.
    + by apply list_elem_of_In, elem_of_keys.
    + by apply bool_decide_eq_true.
Qed.

(** *** Sorting deepest first *)

Lemma insert_deepest_first_perm p l : insert_deepest_first p l ≡ₚ p :: l.
Proof.
  induction l as [|q l IH]; simpl; [done|].
  destruct (Path.depth q <=? Path.depth p)%nat; [done|].
  rewrite IH. apply Permutation_swap.
Qed.

Lemma sorted_deepest_first_perm l : sorted_deepest_first l ≡ₚ l.
Proof.
  induction l as [|p l IH]; simpl; [done|].
  by rewrite insert_deepest_first_perm, IH.
Qed.

Lemma insert_deepest_first_sorted p l :
  StronglySorted deeper_first l → StronglySorted deeper_first (insert_deepest_first p l).
Proof.
  induction l as [|q l IH]; simpl; intros Hs.
  - repeat constructor.
  - apply StronglySorted_cons in Hs as [Hq Hs].
    destruct (Path.depth q <=? Path.depth p)%nat eqn:E.
    + apply Nat.leb_le in E. apply StronglySorted_cons. split.
      * apply Forall_cons. split; [done|].
        eapply Forall_impl; [apply Hq|]. unfold deeper_first. intros x Hx. lia.
      * by apply StronglySorted_cons.
    + apply Nat.leb_gt in E. apply StronglySorted_cons. split; [|by apply IH].
      rewrite insert_deepest_first_perm. apply Forall_cons. split; [|done].
      unfold deeper_first. lia.
Qed.

Lemma sorted_deepest_first_sorted l : StronglySorted deeper_first (sorted_deepest_first l).
Proof.
  induction l as [|p l IH]; simpl; [constructor|].
  by apply insert_deepest_first_sorted.
Qed.

(** *** The folders visited *)

Lemma elem_of_all_dirs fs root p :
  p ∈ all_dirs fs root ↔ is_dir fs p = true ∧ Path.below root p = true.
Proof.
  unfold all_dirs. rewrite sorted_deepest_first_perm.
  rewrite list_elem_of_filter, elem_of_rglob. split; [by intros (? & ? & _)|].
  intros [Hd Hb]. split; [done|]. split; [done|].
  apply is_dir_lookup in Hd. by rewrite Hd.
Qed.

Lemma NoDup_all_dirs fs root : NoDup (all_dirs fs root).
Proof.
  unfold all_dirs, rglob. rewrite sorted_deepest_first_perm.
  apply NoDup_filter, NoDup_filter, NoDup_fst_map_to_list.
Qed.

Lemma below_parent d q : q ≠ [] → Path.parent q = d → Path.below d q = true.
Proof.
  intros Hne <-. rewrite <- (join_parent_name q Hne) at 2. apply below_join.
Qed.

Lemma depth_parent q : q ≠ [] → Path.depth q = S (Path.depth (Path.parent q)).
Proof.
  intros Hne. rewrite <- (join_parent_name q Hne) at 1.
  unfold Path.depth, Path.join. rewrite length_app. simpl. lia.
Qed.

(** *** The loop *)

Section Loop.

Variables (fs0 : filesystem) (root : path).

Lemma pruned_is_file done fs p :
  pruned_to fs0 done fs → done ⊆ all_dirs fs0 root → is_file fs p = is_file fs0 p.
Proof.
  intros Hp Hsub. unfold is_file. rewrite (Hp p).
  destruct (decide _) as [[Hin _]|]; [|done].
  apply Hsub, elem_of_all_dirs in Hin as [Hd _].
  apply is_dir_lookup in Hd. by rewrite Hd.
Qed.

Lemma pruned_is_folder_empty done fs d :
  pruned_to fs0 done fs → done ⊆ all_dirs fs0 root →
  is_folder_empty fs d = is_folder_empty fs0 d.
Proof.
  intros Hp Hsub. apply eq_true_iff_eq. rewrite !is_folder_empty_spec.
  split; intros H p Hb.
  - rewrite <- (pruned_is_file done fs p) by done. by apply H.
  - rewrite (pruned_is_file done fs p) by done. by apply H.
Qed.

(** A folder without files, visited after every deeper folder, has
    no entry left. *)
Lemma pruned_no_entries done rest fs d :
  all_dirs fs0 root = (done ++ d :: rest)%list →
  pruned_to fs0 done fs →
  is_folder_empty fs0 d = true →
  has_entries fs d = false.
Proof.
  intros HL Hp Hempty. apply not_true_is_false. intros Hhas.
  apply has_entries_spec in Hhas as (q & Hq & Hne & Hpar).
  assert (d ∈ all_dirs fs0 root) as Hd.
  { rewrite HL. apply elem_of_app. right. apply list_elem_of_here. }
  apply elem_of_all_dirs in Hd as [Hdir Hbelow].
  pose proof (below_parent d q Hne Hpar) as Hdq.
  rewrite (Hp q) in Hq. destruct (decide _) as [|Hnot]; [by destruct Hq|].
  assert (is_dir fs0 q = true) as Hqdir.
  { rewrite is_folder_empty_spec in Hempty. specialize (Hempty q Hdq).
    unfold is_file in Hempty. apply is_dir_lookup.
    destruct Hq as [[r data|] Hq]; rewrite Hq in Hempty; done. }
  assert (q ∈ all_dirs fs0 root) as HqL.
  { apply elem_of_all_dirs. split; [done|]. by eapply below_trans. }
  assert (is_folder_empty fs0 q = true) as Hqe.
  { rewrite is_folder_empty_spec in *. intros p Hb.
    apply Hempty. by eapply below_trans. }
  apply Hnot. split; [|done].
  rewrite HL in HqL. apply elem_of_app in HqL as [|Hin]; [done|].
  exfalso.
  pose proof (sorted_deepest_first_sorted
                (filter (λ d, is_dir fs0 d = true) (rglob fs0 root))) as Hs.
  fold (all_dirs fs0 root) in Hs. rewrite HL in Hs.
  apply StronglySorted_app_1_r, StronglySorted_cons in Hs as [Hall _].
  apply elem_of_cons in Hin as [->|Hin].
  - pose proof (depth_parent d Hne). rewrite Hpar in *. lia.
  - rewrite Forall_forall in Hall. specialize (Hall q Hin).
    unfold deeper_first in Hall.
    pose proof (depth_parent q Hne). rewrite Hpar in *. lia.
Qed.

Lemma remove_if_empty_step done rest (s : State) d :
  all_dirs fs0 root = (done ++ d :: rest)%list →
  pruned_to fs0 done (disk s) →
  let s' := remove_if_empty s d in
  pruned_to fs0 (done ++ [d]) (disk s') ∧
  errors (stats s') = errors (stats s) ∧
  empty_folders_deleted (stats s') =
    (empty_folders_deleted (stats s) + if is_folder_empty fs0 d then 1 else 0)%nat.
Proof.
  intros HL Hp.
  assert (done ⊆ all_dirs fs0 root) as Hsub.
  { rewrite HL. intros x Hx. apply elem_of_app. by left. }
  assert (d ∈ all_dirs fs0 root) as Hd.
  { rewrite HL. apply elem_of_app. right. apply list_elem_of_here. }
  assert (d ∉ done) as Hnd.
  { pose proof (NoDup_all_dirs fs0 root) as Hnodup. rewrite HL in Hnodup.
    apply NoDup_app in Hnodup as (_ & Hdisj & _).
    intros Hin. apply (Hdisj d Hin), list_elem_of_here. }
  unfold remove_if_empty.
  rewrite (pruned_is_folder_empty done (disk s) d Hp Hsub).
  destruct (is_folder_empty fs0 d) eqn:Hempty.
  - unfold rmdir.
    rewrite (pruned_no_entries done rest (disk s) d HL Hp Hempty).
    assert (is_dir (disk s) d = true) as ->.
    { apply elem_of_all_dirs in Hd as [Hdir _]. unfold is_dir in *.
      rewrite (Hp d). by rewrite decide_False by (by intros [? _]). }
    simpl. split; [|split; [done|lia]].
    intros p. destruct (decide (p = d)) as [->|Hne].
    + rewrite lookup_delete_eq. rewrite decide_True; [done|].
      split; [|done]. apply elem_of_app. right. apply list_elem_of_here.
    + rewrite lookup_delete_ne by done. rewrite (Hp p).
      destruct (decide (p ∈ done ∧ _)) as [[Hin He]|Hnot].
      * rewrite decide_True; [done|]. split; [|done]. apply elem_of_app. by left.
      * rewrite decide_False; [done|]. intros [Hin He]. apply Hnot. split; [|done].
        apply elem_of_app in Hin as [|Hin]; [done|].
        apply list_elem_of_singleton in Hin. done.
  - simpl. split; [|split; [done|lia]].
    intros p. rewrite (Hp p).
    destruct (decide (p ∈ done ∧ _)) as [[Hin He]|Hnot].
    + rewrite decide_True; [done|]. split; [|done]. apply elem_of_app. by left.
    + rewrite decide_False; [done|]. intros [Hin He]. apply Hnot. split; [|done].
      apply elem_of_app in Hin as [|Hin]; [done|].
      apply list_elem_of_singleton in Hin. congruence.
Qed.

Lemma remove_loop rest :
  ∀ done (s : State),
    all_dirs fs0 root = (done ++ rest)%list →
    pruned_to fs0 done (disk s) →
    let s' := foldl remove_if_empty s rest in
    pruned_to fs0 (all_dirs fs0 root) (disk s') ∧
    errors (stats s') = errors (stats s) ∧
    empty_folders_deleted (stats s') =
      (empty_folders_deleted (stats s) +
       length (filter (λ d, is_folder_empty fs0 d = true) rest))%nat.
Proof.
  induction rest as [|d rest IH]; intros done s HL Hp; simpl.
  - rewrite app_nil_r in HL. rewrite HL. split; [done|]. split; [done|lia].
  - destruct (remove_if_empty_step done rest s d HL Hp) as (Hp' & He & Hn).
    destruct (IH (done ++ [d])%list (remove_if_empty s d)) as (Hp'' & He' & Hn').
    { by rewrite <- app_assoc. }
    { done. }
    split; [done|]. split; [congruence|].
    rewrite Hn', Hn. rewrite filter_cons.
    destruct (is_folder_empty fs0 d); simpl; lia.
Qed.

End Loop.

(** C5. [remove_empty_folders] on an existing root counts no error
    and leaves the tree with exactly the folders strictly below the
    root that held no file at any depth taken out: each of those is
    gone and counted, every other entry (the root, every file, every
    folder with a file somewhere below it) is as it was. *)
Theorem pruning_removes_empty_folders (root : path) (s : State) :
  is_Some (disk s !! root) →
  let s' := remove_empty_folders root s in
  errors (stats s') = errors (stats s) ∧
  (∀ d, Path.below root d = true → is_dir (disk s) d = true →
        is_folder_empty (disk s) d = true → disk s' !! d = None) ∧
  (∀ d, is_folder_empty (disk s) d = false → disk s' !! d = disk s !! d) ∧
  (∀ p, is_file (disk s) p = true → disk s' !! p = disk s !! p) ∧
  (∀ p, Path.below root p = false → disk s' !! p = disk s !! p) ∧
  disk s' !! root = disk s !! root ∧
  empty_folders_deleted (stats s') =
    (empty_folders_deleted (stats s) +
     length (filter (λ d, is_folder_empty (disk s) d = true) (all_dirs (disk s) root)))%nat.
Proof.
  intros Hroot s'. unfold s', remove_empty_folders.
  rewrite (proj2 (exists_true _ _) Hroot). simpl.
  destruct (remove_loop (disk s) root (all_dirs (disk s) root) [] s) as (Hp & He & Hn).
  { done. }
  { intros p. rewrite decide_False; [done|]. intros [Hin _]. by apply elem_of_nil in Hin. }
  assert (∀ p, Path.below root p = false →
            disk (foldl remove_if_empty s (all_dirs (disk s) root)) !! p = disk s !! p)
    as Hout.
  { intros p Hb. rewrite (Hp p). rewrite decide_False; [done|].
    intros [Hin _]. apply elem_of_all_dirs in Hin as [_ Hin]. congruence. }
  split; [done|]. split; [|split; [|split; [|split; [done|split; [|done]]]]].
  - intros d Hb Hd Hempty. rewrite (Hp d). rewrite decide_True; [done|].
    split; [|done]. by apply elem_of_all_dirs.
  - intros d Hne. rewrite (Hp d). rewrite decide_False; [done|].
    intros [_ H]. congruence.
  - intros p Hf. rewrite (Hp p). rewrite decide_False; [done|].
    intros [Hin _]. apply elem_of_all_dirs in Hin as [Hd _].
    unfold is_file, is_dir in *. by destruct (disk s !! p) as [[]|].
  - apply Hout. unfold Path.below.
    by rewrite (bool_decide_eq_true_2 (root = root)), andb_false_r.
Qed.

End CleanerProofs.

(** * Further properties *)

(** ** Sibling names *)

Lemma string_app_cons (a : ascii) (s t : string) :
  String a s +:+ t = String a (s +:+ t).
Proof. reflexivity. Qed.

Lemma substring_all (s : string) : String.substring 0 (String.length s) s = s.
Proof. induction s as [|a s IH]; simpl; [done|by rewrite IH]. Qed.

Lemma substring_split (n : nat) :
  ∀ s, (n ≤ String.length s)%nat →
    String.substring 0 n s +:+ String.substring n (String.length s - n) s = s.
Proof.
  induction n as [|n IH]; intros s Hn.
  - rewrite Nat.sub_0_r, substring_all. by destruct s.
  - destruct s as [|a s]; simpl in *; [lia|].
    rewrite string_app_cons. f_equal. apply IH. lia.
Qed.

Lemma stem_suffix_name (nm : string) : Path.stem_of nm +:+ Path.suffix_of nm = nm.
Proof.
  unfold Path.stem_of, Path.suffix_of, Path.slice_to, Path.slice_from, Path.len.
  destruct (_ && _) eqn:E.
  - apply andb_true_iff in E as [H1 H2]. apply Z.ltb_lt in H1, H2.
    apply substring_split. lia.
  - clear E. induction nm as [|a nm IH]; [done|].
    by rewrite string_app_cons, IH.
Qed.

(** X1. For an existing target that is a file, or a folder whose name has
    no extension, [find_available_name] keeps the whole name: it returns,
    in the same folder, the name with [_k] put before the extension, for
    the least [k >= 2] whose path is free. *)
Theorem sibling_name_keeps_whole_name (fs : filesystem) (target : path) (is_folder : bool) :
  is_Some (fs !! target) →
  is_folder = false ∨ Path.suffix target = EmptyString →
  ∃ k, (2 ≤ k)%nat ∧
    find_available_name fs target is_folder =
      (Path.parent target /
         (Path.stem target +:+ "_" +:+ pretty k +:+ Path.suffix target))%list ∧
    Path.stem target +:+ Path.suffix target = Path.name target ∧
    fs !! find_available_name fs target is_folder = None ∧
    ∀ j, (2 ≤ j < k)%nat →
      is_Some (fs !! (Path.parent target /
         (Path.stem target +:+ "_" +:+ pretty j +:+ Path.suffix target))%list).
Proof.
  intros Hex Hcase.
  destruct (find_available_name_first fs target is_folder Hex) as (k & Hk & Heq & Hfree & Hall).
  assert ((if negb is_folder then Path.suffix target else EmptyString) = Path.suffix target)
    as Hsuf.
  { destruct Hcase as [-> | ->]; [done|]. by destruct is_folder. }
  rewrite Hsuf in *. exists k. unfold candidate in *.
  split; [done|]. split; [done|]. split; [apply stem_suffix_name|].
  split; [by rewrite Heq|done].
Qed.

(** X2. The path [find_available_name] returns is never taken, whatever
    the filesystem holds (the search always ends), lies in the folder of
    the target, and is the target itself exactly when the target is free;
    so asking again for the name returned gives it back. *)
Theorem available_name_is_free (fs : filesystem) (target : path) (is_folder again : bool) :
  fs !! find_available_name fs target is_folder = None ∧
  Path.parent (find_available_name fs target is_folder) = Path.parent target ∧
  (find_available_name fs target is_folder = target ↔ fs !! target = None) ∧
  find_available_name fs (find_available_name fs target is_folder) again =
    find_available_name fs target is_folder.
Proof.
  pose proof (find_available_name_free fs target is_folder) as Hfree.
  split; [done|]. split; [apply find_available_name_parent|]. split.
  - split.
    + intros E. by rewrite E in Hfree.
    + intros H. by apply find_available_name_absent, exists_false.
  - by apply find_available_name_absent, exists_false.
Qed.

(** ** [copy_file] seen from its caller *)

Section CopyFileExtras.

Variable md5 : list byte → string.

(** X3. [copy_file] makes the destination's folder before its [try]. If
    that raises, the exception leaves [copy_file] and nothing is counted.
    Otherwise [copy_file] returns: [False] exactly when the source does
    not open, and then the only change is one more in [errors]; [True]
    otherwise, and then [errors] is as before. *)
Theorem copy_file_return_value (nm : string) (src : node) (D : path) (s : State) :
  match mkdir_p (Path.parent D) s with
  | (None, _) => copy_file md5 nm src D s = (None, s)
  | (Some _, s1) =>
      ∃ b s', copy_file md5 nm src D s = (Some b, s') ∧
        (b = false ↔ read_node src = None) ∧
        (b = false → s' = incr_errors s1) ∧
        (b = true → errors (stats s') = errors (stats s1))
  end.
Proof.
  destruct (mkdir_p (Path.parent D) s) as [[[]|] s1] eqn:Hmk.
  - destruct (mkdir_p_spec _ _ _ Hmk) as (Hd & _).
    rewrite (copy_file_after_mkdir md5 _ _ _ _ _ Hmk), copy_file_run by done.
    destruct (exists_ (disk s1) D); simpl.
    + destruct (read_node src) as [data|] eqn:Hsrc.
      * destruct (are_files_identical md5 _ _);
          eexists _, _; (split; [done|]); split_and!; done.
      * rewrite are_files_identical_unread_l.
        eexists _, _; (split; [done|]); split_and!; done.
    + destruct (read_node src) as [data|];
        eexists _, _; (split; [done|]); split_and!; done.
  - unfold copy_file, bind. rewrite Hmk.
    unfold mkdir_p in Hmk. destruct (mkdir_rev _ _); by simplify_eq.
Qed.

(** X4. Calling [copy_file] again with the same readable source and
    destination: when the first call copied or skipped, the second
    skips; when the first call had to rename, the second does not find
    the renamed copy and makes another one, under the next free sibling
    name. *)
Theorem copy_file_again (nm : string) (data : list byte) (D : path) (s : State) :
  (∀ data, md5 data ≠ EmptyString) →
  is_dir (disk s) (Path.parent D) = true →
  let F := File true data in
  let s1 := exec (copy_file md5 nm F D) s in
  let N1 := find_available_name (disk s) D false in
  let N2 := find_available_name (disk s1) D false in
  (files_renamed (stats s1) = files_renamed (stats s) →
     copy_file md5 nm F D s1 = (Some true, incr_files_skipped s1)) ∧
  (files_renamed (stats s1) ≠ files_renamed (stats s) →
     copy_file md5 nm F D s1 =
       (Some true, incr_files_renamed (set_disk (<[N2 := EFile true data]> (disk s1)) s1)) ∧
     N2 ≠ N1 ∧ N2 ≠ D ∧ disk s1 !! N1 = Some (EFile true data)).
Proof.
  intros Hne Hpar F s1 N1 N2.
  assert (∀ p e, disk s !! p = None →
            is_dir (<[p := e]> (disk s)) (Path.parent D) = true) as Hins.
  { intros p e Hp. apply is_dir_lookup. apply is_dir_lookup in Hpar.
    rewrite lookup_insert_ne; [done|]. intros ->. congruence. }
  unfold N2, s1, exec. rewrite (copy_file_run md5 nm F D s) by done.
  destruct (exists_ (disk s) D) eqn:Hex; simpl.
  - destruct (are_files_identical md5 (Some data) (read_file (disk s) D)) eqn:Hid; simpl.
    + split; [intros _|done].
      rewrite copy_file_run by done. simpl. by rewrite Hex, Hid.
    + split; [lia|intros _].
      pose proof (find_available_name_free (disk s) D false) as Hfree. fold N1 in Hfree |- *.
      assert (N1 ≠ D) as HN1.
      { intros E. apply exists_true in Hex. rewrite E in Hfree. rewrite Hfree in Hex.
        by destruct Hex. }
      rewrite copy_file_run by (by apply Hins). simpl.
      assert (exists_ (<[N1:=EFile true data]> (disk s)) D = true) as ->.
      { apply exists_true. rewrite lookup_insert_ne by done. by apply exists_true. }
      assert (read_file (<[N1:=EFile true data]> (disk s)) D = read_file (disk s) D) as ->.
      { unfold read_file. by rewrite lookup_insert_ne. }
      rewrite Hid. simpl. split; [done|].
      pose proof (find_available_name_free (<[N1:=EFile true data]> (disk s)) D false) as Hfree2.
      split_and!.
      * intros E. rewrite E, lookup_insert_eq in Hfree2. done.
      * intros E. rewrite E in Hfree2.
        rewrite lookup_insert_ne in Hfree2 by done.
        apply exists_true in Hex. rewrite Hfree2 in Hex. by destruct Hex.
      * apply lookup_insert_eq.
  - split; [intros _|simpl; lia].
    apply exists_false in Hex.
    rewrite copy_file_run by (by apply Hins). simpl.
    assert (exists_ (<[D:=EFile true data]> (disk s)) D = true) as ->.
    { apply exists_true. rewrite lookup_insert_eq. by eauto. }
    unfold read_file. rewrite lookup_insert_eq.
    by rewrite identical_same.
Qed.

End CopyFileExtras.

(** ** Whole runs *)

Lemma below_length (d p : path) : Path.below d p = true → (length d < length p)%nat.
Proof.
  intros [[k ->] Hne]%below_spec. rewrite length_app.
  destruct k; [by rewrite app_nil_r in Hne|simpl; lia].
Qed.

Lemma below_irrefl (d : path) : Path.below d d = false.
Proof.
  apply not_true_is_false. intros H%below_length. lia.
Qed.

Section RunExtras.

Variable md5 : list byte → string.

(** X5. One call of [consolidate] on a list of source roots does what
    successive calls on its parts do, in both scripts: no root's failure
    cuts the run short. *)
Theorem consolidate_in_parts (master_folder : path) (s : State)
    (l1 l2 : list (option node)) (n1 n2 : list (string * option node)) :
  is_dir (disk s) master_folder = true →
  consolidate md5 master_folder (l1 ++ l2)%list s =
    consolidate md5 master_folder l2 (exec (consolidate md5 master_folder l1) s) ∧
  Interactive.consolidate md5 master_folder (n1 ++ n2)%list s =
    Interactive.consolidate md5 master_folder n2
      (exec (Interactive.consolidate md5 master_folder n1) s).
Proof.
  intros Hd. split.
  - destruct (consolidate_effect md5 master_folder (l1 ++ l2)%list s Hd) as [-> _].
    destruct (consolidate_effect md5 master_folder l1 s Hd) as [H1 (K & _)].
    unfold exec. rewrite H1. simpl.
    destruct (consolidate_effect md5 master_folder l2
                (foldl (step_root md5 master_folder) s l1)) as [-> _].
    + by eapply keeps_is_dir.
    + by rewrite foldl_app.
  - destruct (interactive_consolidate_run md5 master_folder (n1 ++ n2)%list s Hd) as [-> _].
    destruct (interactive_consolidate_run md5 master_folder n1 s Hd) as [H1 (K & _)].
    unfold exec. rewrite H1. simpl.
    destruct (interactive_consolidate_run md5 master_folder n2
                (foldl (step_source md5 master_folder) s n1)) as [-> _].
    + by eapply keeps_is_dir.
    + by rewrite foldl_app.
Qed.

(** X6. The two scripts agree on folders. [copy_folder_tree] of
    [folder_consolidator.py] on an existing source leaves the state that
    [copy_folder_tree] of [consolidate_auto.py] leaves, and returns
    [True] exactly when the source could be listed. Its [consolidate] on
    source roots that are all directories does what [consolidate] of
    [consolidate_auto.py] does on one root that holds them as its
    folders. *)
Theorem scripts_agree_on_folders (master_folder : path) (s : State)
    (nm : string) (src : node) (roots : list (string * node)) :
  is_dir (disk s) master_folder = true →
  only_folders roots = true →
  Interactive.copy_folder_tree md5 master_folder nm (Some src) None s =
    (Some (listed src), exec (copy_folder_tree md5 nm src master_folder) s) ∧
  Interactive.consolidate md5 master_folder (prod_map id Some <$> roots) s =
    consolidate md5 master_folder [Some (Dir true roots)] s.
Proof.
  intros Hd Hdirs. split.
  - unfold Interactive.copy_folder_tree. simpl. by apply copy_existing_tree_agrees.
  - destruct (interactive_consolidate_run md5 master_folder (prod_map id Some <$> roots) s Hd)
      as [-> _].
    destruct (consolidate_effect md5 master_folder [Some (Dir true roots)] s Hd) as [-> _].
    f_equal. simpl. clear Hd. revert s.
    induction roots as [|[n item] roots IH]; intros s; [done|].
    simpl in Hdirs. apply andb_true_iff in Hdirs as [Hitem Hdirs].
    destruct item as [|l es|]; try done.
    rewrite fmap_cons. cbn [foldl]. rewrite IH by done. done.
Qed.


(** *** The destination stays a tree *)










(** *** What a run counts, in full *)

Lemma copy_file_handled (nm inm : string) (r : bool) (data : list byte) (d : path) (s : State) :
  is_dir (disk s) d = true →
  files_handled (stats (exec (copy_file md5 nm (File r data) (d / inm)) s)) =
    (files_handled (stats s) + (if r then 1 else 0))%nat.
Proof.
  intros Hd. unfold exec, files_handled. rewrite copy_file_run by (by rewrite parent_join).
  destruct r; simpl.
  - destruct (exists_ (disk s) (d / inm)); simpl; [|lia].
    destruct (are_files_identical md5 _ _); simpl; lia.
  - destruct (exists_ (disk s) (d / inm)); simpl; lia.
Qed.

Lemma step_item_handled (src : node) :
  ∀ (inm : string) (dest : path) (s : State),
    is_dir (disk s) dest = true →
    files_handled (stats (step_item md5 dest s (inm, src))) =
      (files_handled (stats s) + readable_files src)%nat.
Proof.
  induction src as [r data|l entries IH|] using node_ind; intros inm dest s Hd.
  - rewrite step_item_file. by apply copy_file_handled.
  - rewrite step_item_dir. unfold exec. rewrite copy_folder_tree_exec by done.
    set (dest' := find_available_name (disk s) (dest / inm) true).
    assert (is_dir (disk (entered inm dest s)) dest' = true) as Hdir.
    { unfold entered. simpl. apply is_dir_lookup, lookup_insert_eq. }
    assert (files_handled (stats (entered inm dest s)) = files_handled (stats s)) as He.
    { unfold entered, files_handled. by destruct (exists_ (disk s) (dest / inm)). }
    revert He Hdir. generalize (entered inm dest s). intros s2 He Hdir.
    destruct l; simpl; [|unfold files_handled in *; simpl; lia].
    rewrite <- He. clear He. revert s2 Hdir.
    induction IH as [|[jnm item] es Hitem _ IHes]; intros s' Hd'; simpl.
    + lia.
    + rewrite IHes.
      * pose proof (Hitem jnm dest' s' Hd') as E. cbn [snd] in E. rewrite E. lia.
      * eapply keeps_is_dir; [|done]. by apply step_item_effect.
  - rewrite step_item_other. simpl. lia.
Qed.

Lemma copy_items_handled (dest : path) (es : list (string * node)) (s : State) :
  is_dir (disk s) dest = true →
  files_handled (stats (foldl (step_item md5 dest) s es)) =
    (files_handled (stats s) + sum_entries readable_files es)%nat.
Proof.
  revert s. induction es as [|[jnm item] es IH]; intros s Hd; simpl; [lia|].
  rewrite IH.
  - rewrite (step_item_handled item jnm dest s Hd). lia.
  - eapply keeps_is_dir; [|done]. by apply step_item_effect.
Qed.

(** X9. Every file that opens and that the walk reaches is counted
    exactly once in [files_copied], [files_renamed] or [files_skipped],
    whatever the destination holds: over a run of either script the
    three counters together grow by the number of such files in the
    roots that could be listed. *)
Theorem every_file_is_accounted_for (master_folder : path) (sources : list (option node))
    (named_sources : list (string * option node)) (s : State) :
  is_dir (disk s) master_folder = true →
  files_handled (stats (exec (consolidate md5 master_folder sources) s)) =
    (files_handled (stats s) + sum_list_with root_files sources)%nat ∧
  files_handled (stats (exec (Interactive.consolidate md5 master_folder named_sources) s)) =
    (files_handled (stats s) + sum_list_with source_files named_sources)%nat.
Proof.
  intros Hd. split.
  - destruct (consolidate_effect md5 master_folder sources s Hd) as [Hrun _].
    unfold exec. rewrite Hrun. simpl. clear Hrun. revert s Hd.
    induction sources as [|source sources IH]; intros s Hd; [simpl; lia|].
    cbn [foldl sum_list_with]. rewrite IH.
    + destruct source as [[r data|l es|]|]; cbn [step_root root_files]; try lia.
      destruct l; [|lia]. rewrite copy_items_handled by done. lia.
    + eapply keeps_is_dir; [|done]. by apply step_root_effect.
  - destruct (interactive_consolidate_run md5 master_folder named_sources s Hd) as [Hrun _].
    unfold exec. rewrite Hrun. simpl. clear Hrun. revert s Hd.
    induction named_sources as [|[nm source] named_sources IH]; intros s Hd; [simpl; lia|].
    cbn [foldl sum_list_with]. rewrite IH.
    + assert (files_handled (stats (entered nm master_folder s)) = files_handled (stats s))
        as He.
      { unfold entered, files_handled. by destruct (exists_ (disk s) (master_folder / nm)). }
      unfold step_source, source_files. cbn [fst snd].
      destruct source as [[r data|l es|]|].
      * unfold exec. rewrite copy_folder_tree_exec by done.
        cbn [snd]. unfold files_handled in *. simpl in *. lia.
      * pose proof (step_item_handled (Dir l es) nm master_folder s Hd) as H.
        rewrite step_item_dir in H. rewrite H. lia.
      * unfold exec. rewrite copy_folder_tree_exec by done.
        cbn [snd]. unfold files_handled in *. simpl in *. lia.
      * unfold files_handled. simpl. lia.
    + assert (effect master_folder s (step_source md5 master_folder s (nm, source))) as He.
      { destruct source as [src|]; simpl.
        - by apply copy_folder_tree_effect.
        - apply effect_stats. unfold stats_le. simpl. lia. }
      eapply keeps_is_dir; [apply He|done].
Qed.

(** X10. [errors] after a run is [errors] before plus the number of
    unreadable entries the walk reached. In [consolidate_auto.py] a root
    that is missing, is a file or cannot be listed adds nothing; in
    [folder_consolidator.py] such a root adds one. *)
Theorem errors_of_a_run (master_folder : path) (sources : list (option node))
    (named_sources : list (string * option node)) (s : State) :
  is_dir (disk s) master_folder = true →
  errors (stats (exec (consolidate md5 master_folder sources) s)) =
    (errors (stats s) + sum_list_with root_failures sources)%nat ∧
  errors (stats (exec (Interactive.consolidate md5 master_folder named_sources) s)) =
    (errors (stats s) + sum_list_with source_failures named_sources)%nat.
Proof.
  intros Hd. split.
  - destruct (consolidate_effect md5 master_folder sources s Hd) as [Hrun _].
    unfold exec. rewrite Hrun. simpl. clear Hrun. revert s Hd.
    induction sources as [|source sources IH]; intros s Hd; [simpl; lia|].
    cbn [foldl sum_list_with]. rewrite IH.
    + destruct source as [[r data|l es|]|]; cbn [step_root root_failures]; try lia.
      destruct l; [|lia].
      destruct (copy_items_counts md5 master_folder es s Hd) as [-> _]. lia.
    + eapply keeps_is_dir; [|done]. by apply step_root_effect.
  - destruct (interactive_consolidate_run md5 master_folder named_sources s Hd) as [Hrun _].
    unfold exec. rewrite Hrun. simpl. clear Hrun. revert s Hd.
    induction named_sources as [|[nm source] named_sources IH]; intros s Hd; [simpl; lia|].
    cbn [foldl sum_list_with]. rewrite IH.
    + unfold step_source, source_failures. cbn [fst snd].
      destruct source as [[r data|l es|]|].
      * destruct (entered_counts nm master_folder s) as [He _].
        unfold exec. rewrite copy_folder_tree_exec by done.
        cbn [snd incr_errors stats errors]. rewrite He. lia.
      * destruct (step_item_counts md5 (Dir l es) nm master_folder s Hd) as [H _].
        rewrite step_item_dir in H. rewrite H. lia.
      * destruct (entered_counts nm master_folder s) as [He _].
        unfold exec. rewrite copy_folder_tree_exec by done.
        cbn [snd incr_errors stats errors]. rewrite He. lia.
      * simpl. lia.
    + assert (effect master_folder s (step_source md5 master_folder s (nm, source))) as He.
      { destruct source as [src|]; simpl.
        - by apply copy_folder_tree_effect.
        - apply effect_stats. unfold stats_le. simpl. lia. }
      eapply keeps_is_dir; [apply He|done].
Qed.

End RunExtras.

(** ** A first run into free names *)

Section FirstRun.

Variable md5 : list byte → string.

Lemma no_collision_refl (s : State) : no_collision s s.
Proof. done. Qed.

Lemma no_collision_trans (s1 s2 s3 : State) :
  no_collision s1 s2 → no_collision s2 s3 → no_collision s1 s3.
Proof. unfold no_collision. intros (?&?&?) (?&?&?). split_and!; congruence. Qed.

Lemma copy_items_quietly_with (dest : path) (es : list (string * node)) :
  Forall (λ it, copies_quietly md5 it.2) es →
  NoDup es.*1 →
  forallb (λ '(_, item), clean item) es = true →
  ∀ s, is_dir (disk s) dest = true →
    (∀ x, x ∈ es.*1 → ∀ q, disk s !! (dest / x ++ q)%list = None) →
    no_collision s (foldl (step_item md5 dest) s es).
Proof.
  intros Hall. induction Hall as [|[jnm item] es Hitem _ IH];
    intros Hnd Hclean s Hd Hfree; simpl in *; [done|].
  apply NoDup_cons in Hnd as [Hj Hnd].
  apply andb_true_iff in Hclean as [Hc Hclean].
  assert (disk s !! (dest / jnm)%list = None) as Hfree0.
  { specialize (Hfree jnm (list_elem_of_here _ _) []). by rewrite app_nil_r in Hfree. }
  eapply no_collision_trans.
  - apply Hitem; [done|done|]. apply Hfree, list_elem_of_here.
  - apply IH; [done|done| |].
    + eapply keeps_is_dir; [|done]. by apply step_item_effect.
    + intros y Hy q. rewrite step_item_scope; [|done|done|].
      * apply Hfree. by apply list_elem_of_further.
      * apply join_prefix_ne. intros ->. done.
Qed.

Lemma step_item_quietly (item : node) : copies_quietly md5 item.
Proof.
  induction item as [r data|l es IH|] using node_ind;
    intros inm dest s Hd Hclean Hfree.
  - simpl in Hclean. subst r. rewrite step_item_file. unfold exec.
    rewrite copy_file_run by (by rewrite parent_join).
    pose proof (Hfree []) as H0. rewrite app_nil_r in H0.
    by rewrite (proj2 (exists_false _ _) H0).
  - simpl in Hclean.
    apply andb_true_iff in Hclean as [Hclean Hall].
    apply andb_true_iff in Hclean as [-> Hnd%bool_decide_eq_true].
    rewrite step_item_dir. unfold exec. rewrite copy_folder_tree_exec by done.
    pose proof (Hfree []) as H0. rewrite app_nil_r in H0.
    rewrite find_available_name_absent by (by apply exists_false).
    cbn [snd].
    assert (entered inm dest s =
            incr_folders_copied (set_disk (<[(dest / inm)%list := EDir]> (disk s)) s)) as Hent.
    { unfold entered.
      rewrite find_available_name_absent by (by apply exists_false).
      by rewrite (proj2 (exists_false _ _) H0). }
    rewrite Hent.
    eapply (no_collision_trans _ (incr_folders_copied
              (set_disk (<[(dest / inm)%list := EDir]> (disk s)) s))); [done|].
    apply copy_items_quietly_with; [done|done|done| |].
    + simpl. apply is_dir_lookup, lookup_insert_eq.
    + intros y _ q. simpl. rewrite lookup_insert_ne.
      * replace (dest / inm / y ++ q)%list with (dest / inm ++ y :: q)%list
          by (unfold Path.join; by rewrite <- !app_assoc).
        apply Hfree.
      * replace (dest / inm / y ++ q)%list with (dest / inm ++ y :: q)%list
          by (unfold Path.join; by rewrite <- !app_assoc).
        apply join_app_ne.
  - by rewrite step_item_other.
Qed.

(** X11. A first run of [consolidate] over one clean source root, into a
    master folder where none of the root's names is in use, copies the
    root as it is: below each name lies exactly the source entry's tree,
    the rest of the master folder is as before, every file is counted
    in [files_copied], every folder in [folders_copied], and nothing is
    renamed, skipped or in error. *)
Theorem first_run_copies_everything (master_folder : path) (es : list (string * node))
    (s : State) :
  is_dir (disk s) master_folder = true →
  clean (Dir true es) = true →
  forallb (λ x, vacant (disk s) (master_folder / x)) es.*1 = true →
  let s' := exec (consolidate md5 master_folder [Some (Dir true es)]) s in
  (∀ x q, disk s' !! (master_folder / x ++ q)%list =
          match assoc_with Some x es with
          | Some item => image item q
          | None => disk s !! (master_folder / x ++ q)%list
          end) ∧
  stats s' =
    mkStats (folders_copied (stats s) + sum_entries count_dirs es) (folders_renamed (stats s))
      (files_copied (stats s) + sum_entries readable_files es) (files_renamed (stats s))
      (files_skipped (stats s)) (errors (stats s)).
Proof.
  intros Hd Hclean Hvac s'.
  simpl in Hclean. apply andb_true_iff in Hclean as [Hnd%bool_decide_eq_true Hall].
  assert (∀ x, x ∈ es.*1 → ∀ q, disk s !! (master_folder / x ++ q)%list = None) as Hfree.
  { intros x Hx q. rewrite forallb_forall in Hvac.
    apply vacant_spec, Hvac. by apply list_elem_of_In. }
  destruct (consolidate_effect md5 master_folder [Some (Dir true es)] s Hd) as [Hrun _].
  assert (s' = foldl (step_item md5 master_folder) s es) as ->.
  { unfold s', exec. by rewrite Hrun. }
  split.
  - intros x q.
    pose proof (copy_items_replicate md5 master_folder es s Hnd Hd Hfree x q) as Hrep.
    destruct (assoc_with Some x es) as [item|] eqn:Hx; [|done].
    apply Hrep. eapply (clean_entry es); [done|]. by apply assoc_with_elem.
  - destruct (copy_items_counts md5 master_folder es s Hd) as [He Hf].
    rewrite clean_entries_failures in He by done.
    pose proof (copy_items_handled md5 master_folder es s Hd) as Hh.
    assert (Forall (λ it, copies_quietly md5 it.2) es) as Hq.
    { apply Forall_forall. intros it _. apply step_item_quietly. }
    destruct (copy_items_quietly_with master_folder es Hq Hnd Hall s Hd Hfree)
      as (Hfr & Hr & Hs).
    unfold files_handled in Hh.
    destruct (stats (foldl (step_item md5 master_folder) s es)) as [a b c d e f].
    simpl in *. f_equal; lia.
Qed.

End FirstRun.

(** * More on the empty-folder cleaner *)

Module CleanerExtras.
Import Cleaner.

Implicit Types (fs : filesystem) (p q d : path) (s : State).

Lemma clean_sources_cons (r : path) (rs : list path) s :
  clean_sources (r :: rs) s = clean_sources rs (remove_empty_folders r s).
Proof.
  unfold clean_sources. simpl. f_equal. unfold remove_empty_folders.
  by destruct (negb (exists_ (disk s) r)).
Qed.

(** ** Only folders without files go *)










(** ** No [rmdir] fails *)





(** ** The counter and the entries *)

Lemma remove_if_empty_balance s d :
  (size (disk (remove_if_empty s d)) + empty_folders_deleted (stats (remove_if_empty s d)) =
   size (disk s) + empty_folders_deleted (stats s))%nat.
Proof.
  unfold remove_if_empty.
  destruct (is_folder_empty (disk s) d); [|done].
  unfold rmdir. destruct (is_dir (disk s) d) eqn:Hd; simpl; [|done].
  destruct (has_entries (disk s) d); simpl; [done|].
  apply is_dir_lookup in Hd.
  pose proof (map_size_delete_Some d (disk s) (mk_is_Some _ _ Hd)) as Hsz.
  assert (size (disk s) ≠ 0)%nat as Hpos.
  { intros H0. apply map_size_empty_inv in H0. rewrite H0 in Hd. by rewrite lookup_empty in Hd. }
  lia.
Qed.

Lemma remove_loop_balance (l : list path) s :
  (size (disk (foldl remove_if_empty s l)) +
     empty_folders_deleted (stats (foldl remove_if_empty s l)) =
   size (disk s) + empty_folders_deleted (stats s))%nat.
Proof.
  revert s. induction l as [|d l IH]; intros s; simpl; [done|].
  by rewrite IH, remove_if_empty_balance.
Qed.

(** X13. [empty_folders_deleted] grows over [clean_sources] by exactly
    the number of entries by which the tree shrinks. *)
Theorem deleted_counter_is_exact (source_folders : list path) s :
  let s' := clean_sources source_folders s in
  (size (disk s') + empty_folders_deleted (stats s') =
   size (disk s) + empty_folders_deleted (stats s))%nat.
Proof.
  revert s. induction source_folders as [|r rs IH]; intros s; cbv zeta in *; [done|].
  rewrite clean_sources_cons, IH.
  unfold remove_empty_folders.
  destruct (negb (exists_ (disk s) r)); [done|apply remove_loop_balance].
Qed.

(** ** The tree stays a tree *)




(** ** Nothing is left to prune *)







(** ** A second pass *)





(** ** The order of the visit *)

Lemma StronglySorted_weaken {A} (R R' : relation A) (l : list A) :
  (∀ a b, R a b → R' a b) → StronglySorted R l → StronglySorted R' l.
Proof.
  intros H. induction 1 as [|a l Hs IH Hall]; constructor; [done|].
  eapply Forall_impl; [done|]. intros b Hb. by apply H.
Qed.

(** X17. [all_dirs], the list [remove_empty_folders] walks, holds each
    folder strictly below the root once, nothing else, and no folder
    before a folder that lies below it. *)
Theorem visit_is_bottom_up fs (root : path) :
  (∀ d, d ∈ all_dirs fs root ↔ is_dir fs d = true ∧ Path.below root d = true) ∧
  NoDup (all_dirs fs root) ∧
  StronglySorted bottom_up (all_dirs fs root).
Proof.
  split_and!; [apply CleanerProofs.elem_of_all_dirs|apply CleanerProofs.NoDup_all_dirs|].
  eapply StronglySorted_weaken; [|apply CleanerProofs.sorted_deepest_first_sorted].
  intros a b Hab. unfold bottom_up, deeper_first in *.
  apply not_true_is_false. intros Hb%below_length. unfold Path.depth in Hab. lia.
Qed.

End CleanerExtras.

(** ** The constructor, in full *)

Lemma tree_shapedb_sound (fs : filesystem) : tree_shapedb fs = true → tree_shaped fs.
Proof.
  unfold tree_shapedb. rewrite forallb_forall. intros H p Hp Hne.
  assert (In p (map_to_list fs).*1) as Hin
    by (by apply list_elem_of_In, CleanerProofs.elem_of_keys).
  apply H, orb_true_iff in Hin as [Hnil%bool_decide_eq_true|Hd]; done.
Qed.

Lemma prefix_snoc_cases (p l : path) (x : string) :
  p `prefix_of` (l ++ [x])%list → p = (l ++ [x])%list ∨ p `prefix_of` l.
Proof.
  intros [k E]. destruct k as [|y k _] using rev_ind.
  - left. by rewrite app_nil_r in E.
  - right. rewrite app_assoc in E. apply app_inj_tail in E as [-> _]. by exists k.
Qed.

Lemma tree_shaped_prefix (fs : filesystem) (p q : path) :
  tree_shaped fs → is_dir fs q = true → p `prefix_of` q → is_dir fs p = true.
Proof.
  intros Ht Hq [k ->]. induction k as [|x k IH] using rev_ind.
  - by rewrite app_nil_r in Hq.
  - apply IH. rewrite app_assoc in Hq.
    change ((p ++ k) ++ [x])%list with ((p ++ k) / x)%list in Hq.
    rewrite <- (parent_join (p ++ k) x). apply Ht.
    + apply is_dir_lookup in Hq. by rewrite Hq.
    + unfold Path.join. by destruct (p ++ k)%list.
Qed.

Lemma mkdir_rev_outcome (rp : list string) (fs : filesystem) :
  tree_shaped fs →
  match mkdir_rev rp fs with
  | None => ∃ p, p `prefix_of` rev rp ∧ is_file fs p = true
  | Some fs' =>
      (∀ p, p `prefix_of` rev rp → is_dir fs' p = true) ∧
      (∀ p, fs' !! p = with_ancestors (rev rp) fs p)
  end.
Proof.
  intros Ht. induction rp as [|x rp IH].
  - simpl. destruct (fs !! []) as [[r data|]|] eqn:E.
    + exists []. split; [done|]. unfold is_file. by rewrite E.
    + split.
      * intros p ->%prefix_nil_inv. by apply is_dir_lookup.
      * intros p. unfold with_ancestors. destruct (fs !! p) eqn:Ep; [done|].
        rewrite bool_decide_eq_false_2; [done|]. intros ->%prefix_nil_inv. congruence.
    + split.
      * intros p ->%prefix_nil_inv. apply is_dir_lookup, lookup_insert_eq.
      * intros p. unfold with_ancestors. destruct (decide (p = [])) as [->|Hne].
        -- by rewrite lookup_insert_eq, E.
        -- rewrite lookup_insert_ne by done. destruct (fs !! p); [done|].
           rewrite bool_decide_eq_false_2; [done|]. by intros ->%prefix_nil_inv.
  - simpl. destruct (fs !! (rev rp ++ [x])%list) as [[r data|]|] eqn:E.
    + exists (rev rp ++ [x])%list. split; [done|]. unfold is_file. by rewrite E.
    + split.
      * intros p Hp. eapply tree_shaped_prefix; [done| |done]. by apply is_dir_lookup.
      * intros p. unfold with_ancestors. destruct (fs !! p) eqn:Ep; [done|].
        rewrite bool_decide_eq_false_2; [done|]. intros Hp.
        assert (is_dir fs p = true) as Hd
          by (eapply tree_shaped_prefix; [done| |done]; by apply is_dir_lookup).
        apply is_dir_lookup in Hd. congruence.
    + destruct (mkdir_rev rp fs) as [fs1|].
      * destruct IH as [Hd Hl]. split.
        -- intros p [->|Hp]%prefix_snoc_cases; apply is_dir_lookup.
           ++ apply lookup_insert_eq.
           ++ destruct (decide ((rev rp ++ [x])%list = p)) as [<-|Hne];
                [apply lookup_insert_eq|].
              rewrite lookup_insert_ne by done. by apply is_dir_lookup, Hd.
        -- intros p. unfold with_ancestors.
           destruct (decide ((rev rp ++ [x])%list = p)) as [<-|Hne].
           ++ rewrite lookup_insert_eq, E. by rewrite bool_decide_eq_true_2.
           ++ rewrite lookup_insert_ne by done. rewrite Hl. unfold with_ancestors.
              destruct (fs !! p); [done|].
              apply (f_equal (λ b : bool, if b then Some EDir else None)).
              apply bool_decide_ext. split.
              ** intros Hp. by apply prefix_app_r.
              ** intros [E'|Hp]%prefix_snoc_cases; [congruence|done].
      * destruct IH as (p & Hp & Hf). exists p. split; [by apply prefix_app_r|done].
Qed.

(** X18. On a destination that is a tree, the constructor raises
    exactly when the master folder or a folder above it is a regular
    file. Otherwise it starts from zero counters and leaves the master
    folder and every folder above it a directory, having made the
    missing ones and changed nothing else. *)
Theorem constructor_outcome (master_folder : path) (fs : filesystem) :
  tree_shaped fs →
  match FolderConsolidator master_folder fs with
  | None => ∃ p, p `prefix_of` master_folder ∧ is_file fs p = true
  | Some s =>
      stats s = zero_stats ∧
      (∀ p, p `prefix_of` master_folder → is_file fs p = false) ∧
      (∀ p, p `prefix_of` master_folder → is_dir (disk s) p = true) ∧
      (∀ p, disk s !! p = with_ancestors master_folder fs p)
  end.
Proof.
  intros Ht. pose proof (mkdir_rev_outcome (rev master_folder) fs Ht) as H.
  rewrite rev_involutive in H. unfold FolderConsolidator, mkdir_p. simpl.
  destruct (mkdir_rev (rev master_folder) fs) as [fs'|]; [|done].
  destruct H as [Hd Hl]. split_and!; [done| |done..].
  intros p Hp. apply Hd, is_dir_lookup in Hp. rewrite Hl in Hp.
  unfold with_ancestors, is_file in *. by destruct (fs !! p) as [[]|].
Qed.

(** * The claims at sample inputs *)

Ltac evaluate := vm_compute; first [reflexivity | by eauto | done].

(** C1 at a destination that holds other bytes: the copy goes to
    [a_2.txt]. *)
Lemma copy_file_policy_witness :
  mkdir_p (Path.parent (master / "a.txt")) used_master = (Some tt, used_master) ∧
  is_Some (disk used_master !! (master / "a.txt")%list) ∧
  are_files_identical sample_md5 (Some [x02])
    (read_file (disk used_master) (master / "a.txt")) = false ∧
  copy_file sample_md5 "a.txt" (File true [x02]) (master / "a.txt") used_master =
    (Some true,
     incr_files_renamed
       (set_disk (<[(master / "a_2.txt")%list := EFile true [x02]]> (disk used_master))
          used_master)).
Proof.
  assert (mkdir_p (Path.parent (master / "a.txt")) used_master = (Some tt, used_master))
    as H1 by evaluate.
  assert (is_Some (disk used_master !! (master / "a.txt")%list)) as H2 by evaluate.
  assert (are_files_identical sample_md5 (Some [x02])
            (read_file (disk used_master) (master / "a.txt")) = false) as H3
    by evaluate.
  split; [done|]. split; [done|]. split; [done|].
  destruct (copy_file_policy sample_md5 "a.txt" [x02] (master / "a.txt") used_master
              used_master H1) as (_ & _ & _ & H).
  destruct (H H2 H3) as [-> _]. evaluate.
Defined.

(** C6 at a destination that is a folder, whose digest is [None]. *)
Lemma digest_comparison_witness :
  (∀ data, sample_md5 data ≠ EmptyString) ∧
  is_dir (disk used_master) (Path.parent (master / "Photos")) = true ∧
  is_Some (disk used_master !! (master / "Photos")%list) ∧
  get_file_hash sample_md5 (read_file (disk used_master) (master / "Photos")) = None ∧
  exec (copy_file sample_md5 "Photos" (File true [x05]) (master / "Photos")) used_master =
    incr_files_renamed
      (set_disk (<[(master / "Photos_2")%list := EFile true [x05]]> (disk used_master))
         used_master).
Proof.
  assert (is_dir (disk used_master) (Path.parent (master / "Photos")) = true) as H1
    by evaluate.
  assert (is_Some (disk used_master !! (master / "Photos")%list)) as H2 by evaluate.
  assert (get_file_hash sample_md5 (read_file (disk used_master) (master / "Photos")) = None)
    as H3 by evaluate.
  split; [apply sample_md5_nonempty|]. split; [done|]. split; [done|]. split; [done|].
  destruct (digest_comparison sample_md5 None None "Photos" (File true [x05])
              (master / "Photos") used_master sample_md5_nonempty) as (_ & _ & H).
  destruct (H H1 H2 (or_intror H3)) as [_ ->]. evaluate.
Defined.

(** C10 on a master folder in use. *)
Lemma existing_entries_kept_witness :
  FolderConsolidator master (disk used_master) = Some used_master ∧
  disk (exec (consolidate sample_md5 master [Some root_a; Some root_b]) used_master)
    !! (master / "a.txt")%list = Some (EFile true [x01]).
Proof.
  assert (FolderConsolidator master (disk used_master) = Some used_master) as H1
    by evaluate.
  split; [done|].
  destruct (existing_entries_kept sample_md5 master (disk used_master) used_master
              [Some root_a; Some root_b] [] H1) as ((_ & H) & _).
  apply H. evaluate.
Defined.

(** C4 on the second of two roots that both hold [Photos]: the first
    root's files stay in [Photos], the second root's land in [Photos_2],
    and neither folder holds a file of the other. *)
Lemma directory_collision_wholesale_witness :
  is_dir (disk after_root_a) master = true ∧
  is_Some (disk after_root_a !! (master / "Photos")%list) ∧
  let s' := exec (consolidate sample_md5 master [Some root_b]) after_root_a in
  disk s' !! (master / "Photos" / "a.jpg")%list = Some (EFile true [x01]) ∧
  disk s' !! (master / "Photos" / "b.jpg")%list = Some (EFile true [x02]) ∧
  disk s' !! (master / "Photos" / "c.jpg")%list = None ∧
  disk s' !! (master / "Photos" / "d.jpg")%list = None ∧
  disk s' !! (master / "Photos_2" / "c.jpg")%list = Some (EFile true [x03]) ∧
  disk s' !! (master / "Photos_2" / "d.jpg")%list = Some (EFile true [x04]) ∧
  disk s' !! (master / "Photos_2" / "a.jpg")%list = None ∧
  disk s' !! (master / "Photos_2" / "b.jpg")%list = None.
Proof.
  assert (is_dir (disk after_root_a) master = true) as H1 by evaluate.
  assert (is_Some (disk after_root_a !! (master / "Photos")%list)) as H2 by evaluate.
  split; [done|]. split; [done|].
  destruct (directory_collision_wholesale sample_md5 "Photos" true
              [("c.jpg", File true [x03]); ("d.jpg", File true [x04])]
              master after_root_a H1 H2) as (_ & _ & _ & _ & Hold & Hnew).
  assert (find_available_name (disk after_root_a) (master / "Photos") true
          = (master / "Photos_2")%list) as HN by evaluate.
  rewrite HN in Hnew.
  assert (exec (consolidate sample_md5 master [Some root_b]) after_root_a =
          exec (copy_folder_tree sample_md5 "Photos"
                  (Dir true [("c.jpg", File true [x03]); ("d.jpg", File true [x04])])
                  master) after_root_a) as Hrun.
  { destruct (consolidate_effect sample_md5 master [Some root_b] after_root_a H1) as [Hc _].
    unfold exec at 1. rewrite Hc. reflexivity. }
  cbv zeta. rewrite Hrun.
  assert (clean (Dir true [("c.jpg", File true [x03]); ("d.jpg", File true [x04])]) = true)
    as Hclean by evaluate.
  assert (vacant (disk after_root_a) (master / "Photos_2") = true) as Hvac by evaluate.
  specialize (Hnew Hclean Hvac).
  split_and!.
  - etrans; [apply (Hold ["a.jpg"])|evaluate].
  - etrans; [apply (Hold ["b.jpg"])|evaluate].
  - etrans; [apply (Hold ["c.jpg"])|evaluate].
  - etrans; [apply (Hold ["d.jpg"])|evaluate].
  - apply (Hnew ["c.jpg"]).
  - apply (Hnew ["d.jpg"]).
  - apply (Hnew ["a.jpg"]).
  - apply (Hnew ["b.jpg"]).
Defined.

(** C7 on a folder whose middle entry cannot be listed: one error, and
    the folders on both sides are copied in full. *)
Lemma error_isolation_witness :
  is_dir (disk empty_master) master = true ∧
  unreadable (Dir false []) = true ∧
  let s' :=
    exec (copy_folder_tree sample_md5 "src"
            (Dir true (before_bad ++ ("B", Dir false []) :: after_bad)%list) master)
         empty_master in
  errors (stats s') = 1%nat ∧
  disk s' !! (master / "src" / "A" / "f")%list = Some (EFile true [x01]) ∧
  disk s' !! (master / "src" / "C" / "g")%list = Some (EFile true [x02]).
Proof.
  assert (is_dir (disk empty_master) master = true) as H1 by evaluate.
  assert (unreadable (Dir false []) = true) as H2 by evaluate.
  split; [done|]. split; [done|].
  destruct (error_isolation sample_md5 "src" before_bad "B" (Dir false []) after_bad
              master empty_master H1 H2) as (Hrun & _ & _ & Hone & Hrep).
  cbv zeta. unfold exec. rewrite Hrun. cbn [snd].
  assert (find_available_name (disk empty_master) (master / "src") true
          = (master / "src")%list) as HN by evaluate.
  rewrite HN in Hrep, Hone |- *.
  assert (NoDup ((before_bad ++ ("B", Dir false []) :: after_bad)%list).*1) as Hnd.
  { apply (bool_decide_unpack _). vm_compute. exact I. }
  assert (vacant (disk empty_master) (master / "src") = true) as Hvac by evaluate.
  split; [|split].
  - rewrite Hone; evaluate.
  - apply (Hrep Hnd Hvac "A" (Dir true [("f", File true [x01])]) ["f"]); [|evaluate].
    apply elem_of_app. left. apply list_elem_of_here.
  - apply (Hrep Hnd Hvac "C" (Dir true [("g", File true [x02])]) ["g"]); [|evaluate].
    apply elem_of_app. right. apply list_elem_of_here.
Defined.

(** C9, as claimed, fails where the destination name is taken: the
    folder made under the sibling name is counted in [folders_copied]
    too, though no source folder found its destination free. *)
Lemma collision_counted_as_copied :
  let s' := exec (copy_folder_tree sample_md5 "Photos" (Dir true []) master) used_master in
  exists_ (disk used_master) (master / "Photos") = true ∧
  folders_copied (stats used_master) = 0%nat ∧
  folders_copied (stats s') = 1%nat ∧
  folders_renamed (stats s') = 1%nat.
Proof. evaluate. Qed.

(** C9 as the code has it, on the same input. *)
Lemma folders_copied_counts_every_folder_witness :
  is_dir (disk used_master) master = true ∧
  stats (exec (copy_folder_tree sample_md5 "Photos" (Dir true []) master) used_master) =
    mkStats 1 1 0 0 0 0.
Proof.
  assert (is_dir (disk used_master) master = true) as H1 by evaluate.
  split; [done|].
  destruct (folders_copied_counts_every_folder sample_md5 "Photos" true [] master
              used_master [] H1) as (-> & _).
  evaluate.
Defined.

(** C3, as claimed, fails in three ways. A source root with a subfolder:
    the first run counts no error, and the second run copies the file
    again (into [A_2]) and skips nothing. A file whose destination held
    other bytes: each run renames it again. And in
    [folder_consolidator.py] the whole root is copied again. *)
Lemma second_run_copies_again :
  (let first := exec (consolidate sample_md5 master [Some deep_root]) empty_master in
   let second :=
     exec (consolidate sample_md5 master [Some deep_root]) (mkState (disk first) zero_stats) in
   errors (stats first) = 0%nat ∧
   files_copied (stats second) = 1%nat ∧ files_skipped (stats second) = 0%nat ∧
   disk second !! (master / "A_2" / "f")%list = Some (EFile true [x01])) ∧
  (let root := Some (Dir true [("a.txt", File true [x02])]) in
   let first := exec (consolidate sample_md5 master [root]) used_master in
   let second := exec (consolidate sample_md5 master [root]) (mkState (disk first) zero_stats) in
   errors (stats first) = 0%nat ∧
   files_renamed (stats second) = 1%nat ∧ files_skipped (stats second) = 0%nat) ∧
  (let root := ("r", Some (Dir true flat_root)) in
   let first := exec (Interactive.consolidate sample_md5 master [root]) empty_master in
   let second :=
     exec (Interactive.consolidate sample_md5 master [root]) (mkState (disk first) zero_stats) in
   errors (stats first) = 0%nat ∧
   files_copied (stats second) = 2%nat ∧ files_skipped (stats second) = 0%nat).
Proof. evaluate. Qed.

(** C3 as the code has it, on a root of two files. *)
Lemma second_run_skips_files_witness :
  (∀ data, sample_md5 data ≠ EmptyString) ∧
  is_dir (disk empty_master) master = true ∧
  only_files flat_root = true ∧
  let first := exec (consolidate sample_md5 master [Some (Dir true flat_root)]) empty_master in
  errors (stats first) = errors (stats empty_master) ∧
  files_renamed (stats first) = files_renamed (stats empty_master) ∧
  stats (exec (consolidate sample_md5 master [Some (Dir true flat_root)])
           (mkState (disk first) zero_stats)) = mkStats 0 0 0 0 2 0.
Proof.
  assert (is_dir (disk empty_master) master = true) as H1 by evaluate.
  assert (only_files flat_root = true) as H2 by evaluate.
  split; [apply sample_md5_nonempty|]. split; [done|]. split; [done|].
  cbv zeta.
  assert (errors (stats (exec (consolidate sample_md5 master [Some (Dir true flat_root)])
                           empty_master)) = errors (stats empty_master)) as H3 by evaluate.
  assert (files_renamed (stats (exec (consolidate sample_md5 master
                                         [Some (Dir true flat_root)]) empty_master))
          = files_renamed (stats empty_master)) as H4 by evaluate.
  split; [done|]. split; [done|].
  destruct (second_run_skips_files sample_md5 master flat_root empty_master zero_stats
              sample_md5_nonempty H1 H2 H3 H4) as [_ ->].
  reflexivity.
Defined.

(** C8 at a root that is not there. *)
Lemma missing_root_not_counted_witness :
  let cs := Cleaner.mkState ∅ (Cleaner.mkStats 0 0) in
  Cleaner.disk cs !! ["gone"] = None ∧
  errors (stats (exec (consolidate sample_md5 master [None]) empty_master)) = 0%nat ∧
  Cleaner.errors (Cleaner.stats (Cleaner.clean_sources [["gone"]] cs)) = 0%nat ∧
  errors (stats (exec (Interactive.consolidate sample_md5 master [("gone", None)])
                   empty_master)) = 1%nat.
Proof.
  cbv zeta.
  assert (Cleaner.disk (Cleaner.mkState ∅ (Cleaner.mkStats 0 0)) !! ["gone"] = None) as H1
    by evaluate.
  split; [done|].
  destruct (missing_root_not_counted sample_md5 master [] "gone" [] empty_master
              ["gone"] [] (Cleaner.mkState ∅ (Cleaner.mkStats 0 0)) H1)
    as (Ha & _ & Hc & Hi).
  unfold exec. rewrite Ha, Hc, Hi. evaluate.
Defined.

(** C5 on the tree [A/B/C], [A/D/f]: [A/B] and [A/B/C] go, [A], [A/D]
    and the file stay. *)
Lemma pruning_removes_empty_folders_witness :
  is_Some (Cleaner.disk sample_tree !! []) ∧
  let s' := Cleaner.remove_empty_folders [] sample_tree in
  Cleaner.errors (Cleaner.stats s') = 0%nat ∧
  Cleaner.disk s' !! ["A"; "B"; "C"] = None ∧
  Cleaner.disk s' !! ["A"; "B"] = None ∧
  Cleaner.disk s' !! ["A"] = Some EDir ∧
  Cleaner.disk s' !! ["A"; "D"] = Some EDir ∧
  Cleaner.disk s' !! ["A"; "D"; "f"] = Some (EFile true [x01]).
Proof.
  assert (is_Some (Cleaner.disk sample_tree !! [])) as H1 by evaluate.
  split; [done|].
  destruct (CleanerProofs.pruning_removes_empty_folders [] sample_tree H1)
    as (He & Hgone & Hkept & Hfile & _).
  cbv zeta. split_and!.
  - rewrite He. evaluate.
  - apply Hgone; evaluate.
  - apply Hgone; evaluate.
  - etrans; [apply Hkept|]; evaluate.
  - etrans; [apply Hkept|]; evaluate.
  - etrans; [apply Hfile|]; evaluate.
Defined.

(** * The further properties at sample inputs *)

Lemma sibling_name_keeps_whole_name_witness :
  is_Some (disk used_master !! (master / "a.txt")%list) ∧
  find_available_name (disk used_master) (master / "a.txt") false = (master / "a_2.txt")%list.
Proof.
  assert (is_Some (disk used_master !! (master / "a.txt")%list)) as H1 by evaluate.
  split; [done|].
  destruct (sibling_name_keeps_whole_name (disk used_master) (master / "a.txt") false H1
              (or_introl eq_refl)) as (k & Hk & -> & _ & _ & Hall).
  destruct (decide (k = 2%nat)) as [->|Hne]; [evaluate|].
  exfalso. specialize (Hall 2%nat ltac:(lia)).
  revert Hall. vm_compute. by intros [? ?].
Defined.

(** X4 at [a.txt] in the used master folder, where other bytes lie. *)
Lemma copy_file_again_witness :
  (∀ data, sample_md5 data ≠ EmptyString) ∧
  is_dir (disk used_master) (Path.parent (master / "a.txt")) = true ∧
  let s1 := exec (copy_file sample_md5 "a.txt" (File true [x02]) (master / "a.txt"))
              used_master in
  disk s1 !! (master / "a_2.txt")%list = Some (EFile true [x02]) ∧
  copy_file sample_md5 "a.txt" (File true [x02]) (master / "a.txt") s1 =
    (Some true,
     incr_files_renamed
       (set_disk (<[(master / "a_3.txt")%list := EFile true [x02]]> (disk s1)) s1)).
Proof.
  assert (is_dir (disk used_master) (Path.parent (master / "a.txt")) = true) as H1
    by evaluate.
  split; [apply sample_md5_nonempty|]. split; [done|].
  destruct (copy_file_again sample_md5 "a.txt" [x02] (master / "a.txt") used_master
              sample_md5_nonempty H1) as [_ H].
  destruct H as (Hrun & _ & _ & Hcopy); [evaluate|].
  cbv zeta. split.
  - etrans; [|apply Hcopy]. evaluate.
  - etrans; [apply Hrun|]. evaluate.
Defined.

(** X5 on the two sample roots. *)
Lemma consolidate_in_parts_witness :
  is_dir (disk empty_master) master = true ∧
  consolidate sample_md5 master [Some root_a; Some root_b] empty_master =
    consolidate sample_md5 master [Some root_b] after_root_a ∧
  Interactive.consolidate sample_md5 master [("a", Some root_a); ("b", Some root_b)]
      empty_master =
    Interactive.consolidate sample_md5 master [("b", Some root_b)]
      (exec (Interactive.consolidate sample_md5 master [("a", Some root_a)]) empty_master).
Proof.
  assert (is_dir (disk empty_master) master = true) as H1 by evaluate.
  split; [done|].
  exact (consolidate_in_parts sample_md5 master empty_master [Some root_a] [Some root_b]
           [("a", Some root_a)] [("b", Some root_b)] H1).
Defined.

(** X6 on a root that holds the folder [A]. *)
Lemma scripts_agree_on_folders_witness :
  is_dir (disk empty_master) master = true ∧
  only_folders [("A", Dir true [("f", File true [x01])])] = true ∧
  Interactive.copy_folder_tree sample_md5 master "A" (Some deep_root) None empty_master =
    (Some true, exec (copy_folder_tree sample_md5 "A" deep_root master) empty_master) ∧
  Interactive.consolidate sample_md5 master
      [("A", Some (Dir true [("f", File true [x01])]))] empty_master =
    consolidate sample_md5 master [Some deep_root] empty_master.
Proof.
  assert (is_dir (disk empty_master) master = true) as H1 by evaluate.
  assert (only_folders [("A", Dir true [("f", File true [x01])])] = true) as H2
    by evaluate.
  split; [done|]. split; [done|].
  exact (scripts_agree_on_folders sample_md5 master empty_master "A" deep_root
           [("A", Dir true [("f", File true [x01])])] H1 H2).
Defined.



(** X9 over a root of two files and a missing root. *)
Lemma every_file_is_accounted_for_witness :
  is_dir (disk used_master) master = true ∧
  files_handled
    (stats (exec (consolidate sample_md5 master [Some (Dir true flat_root); None])
              used_master)) = 2%nat ∧
  files_handled
    (stats (exec (Interactive.consolidate sample_md5 master
                    [("r", Some (Dir true flat_root)); ("gone", None)]) used_master)) = 2%nat.
Proof.
  assert (is_dir (disk used_master) master = true) as H1 by evaluate.
  split; [done|].
  destruct (every_file_is_accounted_for sample_md5 master
              [Some (Dir true flat_root); None]
              [("r", Some (Dir true flat_root)); ("gone", None)] used_master H1) as [Ha Hb].
  split; [rewrite Ha|rewrite Hb]; evaluate.
Defined.

(** X10 over a root with an unreadable file and a missing root. *)
Lemma errors_of_a_run_witness :
  is_dir (disk empty_master) master = true ∧
  errors (stats (exec (consolidate sample_md5 master
                         [Some (Dir true [("x", File false [x01])]); None])
                   empty_master)) = 1%nat ∧
  errors (stats (exec (Interactive.consolidate sample_md5 master
                         [("r", Some (Dir true [("x", File false [x01])])); ("gone", None)])
                   empty_master)) = 2%nat.
Proof.
  assert (is_dir (disk empty_master) master = true) as H1 by evaluate.
  split; [done|].
  destruct (errors_of_a_run sample_md5 master
              [Some (Dir true [("x", File false [x01])]); None]
              [("r", Some (Dir true [("x", File false [x01])])); ("gone", None)]
              empty_master H1) as [Ha Hb].
  split; [rewrite Ha|rewrite Hb]; evaluate.
Defined.

(** X11 for the first sample root into the empty master folder. *)
Lemma first_run_copies_everything_witness :
  is_dir (disk empty_master) master = true ∧
  clean root_a = true ∧
  forallb (λ x, vacant (disk empty_master) (master / x)) ["Photos"] = true ∧
  disk after_root_a !! (master / "Photos" / "b.jpg")%list = Some (EFile true [x02]) ∧
  stats after_root_a = mkStats 1 0 2 0 0 0.
Proof.
  assert (is_dir (disk empty_master) master = true) as H1 by evaluate.
  assert (clean root_a = true) as H2 by evaluate.
  assert (forallb (λ x, vacant (disk empty_master) (master / x)) ["Photos"] = true) as H3
    by evaluate.
  split; [done|]. split; [done|]. split; [done|].
  destruct (first_run_copies_everything sample_md5 master _ empty_master H1 H2 H3)
    as [Hl Hs].
  split.
  - etrans; [apply (Hl "Photos" ["b.jpg"])|]. evaluate.
  - etrans; [apply Hs|]. evaluate.
Defined.



(** X18 for the master folder on a destination that holds the anchor
    only. *)
Lemma constructor_outcome_witness :
  tree_shaped {[ [] := EDir ]} ∧
  FolderConsolidator master {[ [] := EDir ]} =
    Some (mkState (<[master := EDir]> {[ [] := EDir ]}) zero_stats) ∧
  is_dir (<[master := EDir]> {[ [] := EDir ]}) master = true.
Proof.
  assert (tree_shaped ({[ [] := EDir ]} : filesystem)) as H1
    by (apply tree_shapedb_sound; evaluate).
  assert (FolderConsolidator master {[ [] := EDir ]} =
            Some (mkState (<[master := EDir]> {[ [] := EDir ]}) zero_stats)) as H2
    by evaluate.
  split; [done|]. split; [done|].
  pose proof (constructor_outcome master {[ [] := EDir ]} H1) as H.
  rewrite H2 in H. destruct H as (_ & _ & Hd & _).
  apply (Hd master). done.
Defined.
